(** * kfastml: request ids, response envelopes, and the watermark-removal
    model server

    A shallow embedding of [kfastml/utils/api.py] and
    [prebuilt_apps/watermark_removal/model_server.py], with what holds of
    them.

    Conventions.
    - A Python call either returns or raises ([Py.outcome]); the exceptions
      are values of [Py.exn].
    - Code that talks to the outside world (S3, the logger, stdout, joblib,
      the loaded network) runs in the monad [Server.M], which threads the
      trace of external events and propagates a raised exception.
    - What the repository imports but does not define (boto3, PIL, joblib,
      the loaded network, [print_model_parameters]) is a field of the record
      [Server.Env]; the results of [download_uris_async], the clock, the
      bytes of [os.urandom] and [float.__repr__] are explicit arguments.
    - The dictionary a job returns is a [gmap string _]; the Python values
      that [json.dumps] renders are trees ([Api.pyvalue]), a dictionary among
      them being the list of its items in insertion order; a tensor is its
      shape and its elements in row-major order. *)

From Stdlib Require Import ZArith QArith Qround Qabs Lia Lqa List String Ascii SpecFloat.
From Stdlib Require Import DecimalString DecimalZ DecimalPos.
From stdpp Require Import base gmap strings list.

(** ** Python outcomes *)

Module Py.

(** The exception classes that occur in the modelled code.  All of them are
    subclasses of [Exception], so [except Exception] catches each one. *)
Inductive exn : Type :=
| TypeError (msg : string)
| ValueError (msg : string)
| RuntimeError (msg : string)
| IndexError (msg : string)
| ZeroDivisionError
| ClientError (msg : string)
| UnidentifiedImageError
| OSError (msg : string).

(** [str(e)] *)
Definition exn_str (e : exn) : string :=
  match e with
  | TypeError m | ValueError m | RuntimeError m | IndexError m
  | ClientError m | OSError m => m
  | ZeroDivisionError => "division by zero"
  | UnidentifiedImageError => "cannot identify image file"
  end.

Inductive outcome (A : Type) : Type :=
| Return (a : A)
| Raise (e : exn).
Arguments Return {A} a.
Arguments Raise {A} e.

(** Sequencing of calls that touch nothing outside the process. *)
Definition obind {A B} (o : outcome A) (k : A -> outcome B) : outcome B :=
  match o with
  | Return a => k a
  | Raise e => Raise e
  end.

End Py.
Import Py.

Notation "'let?' x ':=' o 'in' k" := (obind o (fun x => k))
  (at level 10, x pattern, o at level 100, k at level 200).

(** ** kfastml/utils/api.py *)

Module Api.
Local Open Scope Z_scope.

(** *** [uuid.uuid4().hex] *)

(** [int.from_bytes(b, byteorder='big')] *)
Definition int_from_bytes (b : list Byte.byte) : Z :=
  fold_left (fun acc x => acc * 256 + Z.of_N (Byte.to_N x)) b 0.

(** [UUID(bytes=os.urandom(16), version=4)]: the sixteen bytes read as a
    big-endian integer, with the variant set to RFC 4122 and the version
    nibble set to 4. *)
Definition uuid4 (urandom16 : list Byte.byte) : Z :=
  let i := int_from_bytes urandom16 in
  let i := Z.land i (Z.lnot (Z.shiftl 0xc000 48)) in
  let i := Z.lor i (Z.shiftl 0x8000 48) in
  let i := Z.land i (Z.lnot (Z.shiftl 0xf000 64)) in
  Z.lor i (Z.shiftl 4 76).

Definition hex_digit (d : Z) : ascii :=
  match d with
  | 0 => "0" | 1 => "1" | 2 => "2" | 3 => "3" | 4 => "4" | 5 => "5"
  | 6 => "6" | 7 => "7" | 8 => "8" | 9 => "9" | 10 => "a" | 11 => "b"
  | 12 => "c" | 13 => "d" | 14 => "e" | _ => "f"
  end%char.

(** ['%0nx' % z] for [0 <= z < 16^n]: the [n] hexadecimal digits of [z],
    most significant first. *)
Fixpoint hex_fixed (n : nat) (z : Z) : string :=
  match n with
  | O => EmptyString
  | S k => String (hex_digit ((z / 16 ^ Z.of_nat k) mod 16)) (hex_fixed k z)
  end.

(** [UUID.hex] is ['%032x' % self.int]; a UUID's integer is below [2^128]. *)
Definition uuid_hex (i : Z) : string := hex_fixed 32 i.

(** [gen_request_id(api_name)]; the sixteen bytes [uuid4] draws from
    [os.urandom] are an explicit argument. *)
Definition gen_request_id (urandom16 : list Byte.byte) (api_name : string) : string :=
  api_name +:+ "_" +:+ uuid_hex (uuid4 urandom16).

Definition is_hex_char (c : ascii) : bool :=
  let n := Z.of_N (N_of_ascii c) in
  ((48 <=? n) && (n <=? 57)) || ((97 <=? n) && (n <=? 102)).

Fixpoint string_forallb (p : ascii -> bool) (s : string) : bool :=
  match s with
  | EmptyString => true
  | String c r => p c && string_forallb p r
  end.

(** *** [datetime.now()] and its [str] *)

Record datetime : Type := mk_datetime {
  year : Z; month : Z; day : Z;
  hour : Z; minute : Z; second : Z; microsecond : Z
}.

Definition dec_digit (d : Z) : ascii :=
  match d with
  | 0 => "0" | 1 => "1" | 2 => "2" | 3 => "3" | 4 => "4"
  | 5 => "5" | 6 => "6" | 7 => "7" | 8 => "8" | _ => "9"
  end%char.

(** ['%0nd' % z] for [0 <= z < 10^n]. *)
Fixpoint dec_fixed (n : nat) (z : Z) : string :=
  match n with
  | O => EmptyString
  | S k => String (dec_digit ((z / 10 ^ Z.of_nat k) mod 10)) (dec_fixed k z)
  end.

(** [str(dt)] of a naive datetime is [dt.isoformat(sep=' ')]: the fraction is
    printed only when the microsecond is not zero. *)
Definition datetime_str (dt : datetime) : string :=
  dec_fixed 4 (year dt) +:+ "-" +:+ dec_fixed 2 (month dt) +:+ "-" +:+
  dec_fixed 2 (day dt) +:+ " " +:+ dec_fixed 2 (hour dt) +:+ ":" +:+
  dec_fixed 2 (minute dt) +:+ ":" +:+ dec_fixed 2 (second dt) +:+
  (if microsecond dt =? 0 then "" else "." +:+ dec_fixed 6 (microsecond dt)).

(** *** Python values and [json.dumps] *)

#[local] Unset Elimination Schemes.

(** The objects [json.dumps] tells apart.  A [str] is given by the UTF-8
    bytes of its text; [PObject] stands for an object of any other class,
    named by its type.  Values are finite trees: an object that contains
    itself, nesting beyond the recursion limit and an [int] beyond the limit
    on the digits of its decimal are left out. *)
Inductive pyvalue : Type :=
| PNone
| PBool (b : bool)
| PInt (z : Z)
| PFloat (x : spec_float)
| PStr (s : string)
| PList (xs : list pyvalue)
| PTuple (xs : list pyvalue)
| PDict (items : list (pyvalue * pyvalue))
| PObject (type_name : string).
#[local] Set Elimination Schemes.

(** The double quote. *)
Definition dquote : ascii := "034".

Definition is_control (c : ascii) : bool := (N_of_ascii c <? 32)%N.

(** [ESCAPE_DCT] of [json.encoder]: what [py_encode_basestring] puts for a
    character. *)
Definition escape_char (c : ascii) : string :=
  if Ascii.eqb c dquote then String "\" (String dquote EmptyString)
  else if Ascii.eqb c "\" then "\\"
  else if Ascii.eqb c "008" then "\b"
  else if Ascii.eqb c "012" then "\f"
  else if Ascii.eqb c "010" then "\n"
  else if Ascii.eqb c "013" then "\r"
  else if Ascii.eqb c "009" then "\t"
  else if is_control c then "\u00" +:+ hex_fixed 2 (Z.of_N (N_of_ascii c))
  else String c EmptyString.

Fixpoint escape (s : string) : string :=
  match s with
  | EmptyString => EmptyString
  | String c rest => escape_char c +:+ escape rest
  end.

(** [encode_basestring(s)], the encoder of strings under
    [ensure_ascii=False]. *)
Definition encode_basestring (s : string) : string :=
  String dquote (escape s +:+ String dquote EmptyString).

(** [int.__repr__] *)
Definition int_repr (z : Z) : string := NilZero.string_of_int (Z.to_int z).

(** [','.join(parts)], the first part that raises deciding. *)
Fixpoint join (parts : list (outcome string)) : outcome string :=
  match parts with
  | [] => Return EmptyString
  | p :: rest =>
      match rest with
      | [] => p
      | _ :: _ =>
          let? a := p in
          let? b := join rest in
          Return (a +:+ "," +:+ b)
      end
  end.

Section Dumps.

(** [float.__repr__] of a finite float: the shortest decimal that reads
    back as the same float.  It is left open. *)
Variable float_repr : spec_float -> string.

(** [floatstr] under [allow_nan=False] *)
Definition floatstr (x : spec_float) : outcome string :=
  match x with
  | S754_nan | S754_infinity _ =>
      Raise (ValueError "Out of range float values are not JSON compliant")
  | _ => Return (float_repr x)
  end.

(** The text of a dictionary key ([skipkeys=False]). *)
Definition key_text (k : pyvalue) : outcome string :=
  match k with
  | PStr s => Return s
  | PFloat x => floatstr x
  | PBool true => Return "true"
  | PBool false => Return "false"
  | PNone => Return "null"
  | PInt z => Return (int_repr z)
  | PList _ => Raise (TypeError "keys must be str, int, float, bool or None, not list")
  | PTuple _ => Raise (TypeError "keys must be str, int, float, bool or None, not tuple")
  | PDict _ => Raise (TypeError "keys must be str, int, float, bool or None, not dict")
  | PObject type_name =>
      Raise (TypeError ("keys must be str, int, float, bool or None, not " +:+ type_name))
  end.

(** [json.dumps(o, ensure_ascii=False, allow_nan=False, indent=None,
    separators=(",", ":"))], the call [JSONResponse.render] makes. *)
Fixpoint json_dumps (o : pyvalue) : outcome string :=
  match o with
  | PNone => Return "null"
  | PBool true => Return "true"
  | PBool false => Return "false"
  | PInt z => Return (int_repr z)
  | PFloat x => floatstr x
  | PStr s => Return (encode_basestring s)
  | PList xs | PTuple xs =>
      let? inner := join (map json_dumps xs) in
      Return ("[" +:+ inner +:+ "]")
  | PDict items =>
      let? inner :=
        join (map (fun kv : pyvalue * pyvalue =>
                     let? k := key_text (fst kv) in
                     let? v := json_dumps (snd kv) in
                     Return (encode_basestring k +:+ ":" +:+ v))
                  items) in
      Return ("{" +:+ inner +:+ "}")
  | PObject type_name =>
      Raise (TypeError ("Object of type " +:+ type_name +:+ " is not JSON serializable"))
  end.

End Dumps.

(** *** [InferenceTaskResult], [JSONResponse] and [build_json_response] *)

(** [kfastml.engine.inference_engine] is not part of the sources at hand:
    the two fields of an [InferenceTaskResult] hold Python objects, and
    nothing in [build_json_response] restricts them. *)
Record InferenceTaskResult : Type := mk_InferenceTaskResult {
  finished_reason : pyvalue;
  result : pyvalue
}.

(** A [starlette] response, once constructed: the rendered body, the status
    code and the media type. *)
Record JSONResponse : Type := mk_JSONResponse {
  body : string;
  status_code : Z;
  media_type : string
}.

Section BuildJsonResponse.

Variable float_repr : spec_float -> string.

(** [JSONResponse(content)]: the constructor renders the content at once,
    [self.body = self.render(content)], and so raises what [json.dumps]
    raises. *)
Definition JSONResponse_new (content : pyvalue) : outcome JSONResponse :=
  let? text := json_dumps float_repr content in
  Return {| body := text; status_code := 200; media_type := "application/json" |}.

(** The dictionary display of lines 14-20; [now] is the value
    [datetime.now()] returns at the call. *)
Definition envelope (now : datetime) (request_id : string)
    (job_result : InferenceTaskResult) : list (pyvalue * pyvalue) :=
  [(PStr "created", PStr (datetime_str now));
   (PStr "id", PStr request_id);
   (PStr "finished_reason", finished_reason job_result);
   (PStr "result", result job_result)].

(** [build_json_response(request_id, job_result)] *)
Definition build_json_response (now : datetime) (request_id : string)
    (job_result : InferenceTaskResult) : outcome JSONResponse :=
  JSONResponse_new (PDict (envelope now request_id job_result)).

End BuildJsonResponse.

(** *** Decoding a body *)

(** What a client does with the body of a response: [json.loads], here for
    compact JSON text, the form the encoder above produces (no white space
    between tokens); numbers with a fraction or an exponent are floats and
    are left undecoded, as is an escape [\uXXXX] beyond ASCII. *)








(** Keys, as the decoder compares them: it only makes [str] keys. *)
Definition key_eqb (a b : pyvalue) : bool :=
  match a, b with
  | PStr x, PStr y => String.eqb x y
  | _, _ => false
  end.



(** [d.get(k)] for a [str] key *)
Fixpoint dict_get (d : list (pyvalue * pyvalue)) (k : string) : option pyvalue :=
  match d with
  | [] => None
  | (k', v) :: d' => if key_eqb k' (PStr k) then Some v else dict_get d' k
  end.










(** *** Notions used to state what holds of the encoder and the decoder *)




Section Rendered.

Variable float_repr : spec_float -> string.



End Rendered.

End Api.

(** ** The parts of torch, numpy and PIL that the server uses *)

Module Torch.
Local Open Scope Z_scope.

(** A dense tensor: its shape and its elements in row-major order.  The
    element type stands for the dtype ([Z] for integer dtypes, [Q] for the
    value of a float32 element, [spec_float] where the bits matter). *)
Record Tensor (A : Type) : Type := mk_Tensor {
  shape : list Z;
  data : list A
}.
Arguments mk_Tensor {A} shape data.
Arguments shape {A} t.
Arguments data {A} t.

Definition numel (dims : list Z) : Z := fold_right Z.mul 1 dims.

Definition tensor_map {A B} (f : A -> B) (t : Tensor A) : Tensor B :=
  mk_Tensor (shape t) (map f (data t)).

(** [t.view(dims...)]: the same elements under another shape of the same
    size; the tensor [t] itself is left as it is. *)
Definition view {A} (t : Tensor A) (dims : list Z) : outcome (Tensor A) :=
  if forallb (fun d => 0 <=? d) dims && (numel dims =? numel (shape t))
  then Return (mk_Tensor dims (data t))
  else Raise (RuntimeError "shape is invalid for input size").

(** Row-major index arithmetic. *)
Fixpoint unravel (dims : list Z) (i : Z) : list Z :=
  match dims with
  | [] => []
  | _ :: rest => (i / numel rest) :: unravel rest (i mod numel rest)
  end.

Fixpoint ravel (dims : list Z) (idx : list Z) : Z :=
  match dims, idx with
  | _ :: rest, i :: idx' => i * numel rest + ravel rest idx'
  | _, _ => 0
  end.

Definition is_permutation_of_axes (n : nat) (dims : list Z) : bool :=
  forallb (fun a => existsb (Z.eqb (Z.of_nat a)) dims) (seq 0 n).

Fixpoint index_of (a : Z) (dims : list Z) : Z :=
  match dims with
  | [] => 0
  | d :: rest => if d =? a then 0 else 1 + index_of a rest
  end.

(** [t.permute(dims...)]: axis [k] of the result is axis [dims[k]] of [t].
    It returns a new tensor object and needs one entry per axis of [t]. *)
Definition permute {A} (t : Tensor A) (dims : list Z) : outcome (Tensor A) :=
  let n := length (shape t) in
  if negb (Nat.eqb (length dims) n) then
    Raise (RuntimeError "permute: number of dimensions in the tensor input does not match the length of the desired ordering of dimensions")
  else if negb (is_permutation_of_axes n dims) then
    Raise (RuntimeError "permute: repeated or out of range dim")
  else
    let out_shape := map (fun d => nth (Z.to_nat d) (shape t) 0) dims in
    let source (j : nat) : Z :=
      let out_idx := unravel out_shape (Z.of_nat j) in
      let in_idx :=
        map (fun a => nth (Z.to_nat (index_of (Z.of_nat a) dims)) out_idx 0) (seq 0 n) in
      ravel (shape t) in_idx in
    Return (mk_Tensor out_shape
              (flat_map (fun j => match nth_error (data t) (Z.to_nat (source j)) with
                                  | Some x => [x]
                                  | None => []
                                  end)
                        (seq 0 (length (data t))))).

(** [t.contiguous()]: the elements are already kept in row-major order. *)
Definition contiguous {A} (t : Tensor A) : Tensor A := t.

(** [t.unsqueeze(dim)].  [dim] is a required positional parameter of
    [torch.Tensor.unsqueeze]: calling the method with no argument is a
    [TypeError]. *)
Definition unsqueeze {A} (t : Tensor A) (dim : option Z) : outcome (Tensor A) :=
  match dim with
  | None =>
      Raise (TypeError "unsqueeze() missing 1 required positional arguments: dim")
  | Some d =>
      let n := Z.of_nat (length (shape t)) in
      if (- (n + 1) <=? d) && (d <=? n) then
        let k := Z.to_nat (if d <? 0 then d + n + 1 else d) in
        Return (mk_Tensor (firstn k (shape t) ++ 1 :: skipn k (shape t)) (data t))
      else Raise (IndexError "Dimension out of range")
  end.

(** [t *= k] on a uint8 tensor: in place, wrapping modulo 256. *)
Definition imul_uint8 (t : Tensor Z) (k : Z) : Tensor Z :=
  tensor_map (fun v => (v * k) mod 256) t.

(** [t.float()] of an integer tensor, and [t.div(c)] of a float tensor, read
    on the values the elements denote. *)
Definition float (t : Tensor Z) : Tensor Q := tensor_map inject_Z t.
Definition div (t : Tensor Q) (c : Q) : Tensor Q := tensor_map (fun v => (v / c)%Q) t.

(** [torch.round]: to the nearest integer, ties to the even one. *)
Definition round_half_even (q : Q) : Z :=
  let f := Qfloor q in
  match (q - inject_Z f ?= 1 # 2)%Q with
  | Lt => f
  | Gt => f + 1
  | Eq => if Z.even f then f else f + 1
  end.

(** *** PIL images *)

(** The 1-bit and 8-bit modes. *)
Inductive mode : Type :=
| Mode_1 | Mode_L | Mode_P | Mode_LA | Mode_RGB | Mode_RGBA | Mode_CMYK.

Definition mode_name (m : mode) : string :=
  match m with
  | Mode_1 => "1" | Mode_L => "L" | Mode_P => "P" | Mode_LA => "LA"
  | Mode_RGB => "RGB" | Mode_RGBA => "RGBA" | Mode_CMYK => "CMYK"
  end.

(** [image.getbands()] *)
Definition getbands (m : mode) : list string :=
  match m with
  | Mode_1 => ["1"] | Mode_L => ["L"] | Mode_P => ["P"] | Mode_LA => ["L"; "A"]
  | Mode_RGB => ["R"; "G"; "B"] | Mode_RGBA => ["R"; "G"; "B"; "A"]
  | Mode_CMYK => ["C"; "M"; "Y"; "K"]
  end%string.

(** A decoded image: [pixels] holds the samples row by row, the bands of a
    pixel next to each other, as [np.array(image, np.uint8)] lays them out
    (0 or 1 per pixel in mode "1"). *)
Record Image : Type := mk_Image {
  im_mode : mode;
  width : Z;
  height : Z;
  pixels : list Z
}.

Definition sample_max (m : mode) : Z :=
  match m with Mode_1 => 1 | _ => 255 end.

Definition well_formed_image (im : Image) : Prop :=
  0 < width im /\ 0 < height im /\
  Z.of_nat (length (pixels im)) =
    height im * width im * Z.of_nat (length (getbands (im_mode im))) /\
  Forall (fun v => 0 <= v <= sample_max (im_mode im)) (pixels im).

(** [np.array(image, np.uint8, copy=True)]: two axes for a single-band
    image, three (height, width, band) otherwise. *)
Definition np_array_uint8 (im : Image) : Tensor Z :=
  match getbands (im_mode im) with
  | [_] => mk_Tensor [height im; width im] (pixels im)
  | bands => mk_Tensor [height im; width im; Z.of_nat (length bands)] (pixels im)
  end.

(** [torch.from_numpy] shares the array's memory and keeps shape and dtype. *)
Definition from_numpy (a : Tensor Z) : Tensor Z := a.

End Torch.
Import Torch.

(** ** prebuilt_apps/watermark_removal/model_server.py *)

Module Server.
Local Open Scope Z_scope.

Definition bytes := list Byte.byte.

(** What is handed to [s3.put_object] as [Body]. *)
Inductive body : Type :=
| BodyBytes (b : bytes)
| BodyTensor (t : Tensor Q).

(** Calls that leave the process, in the order they happen. *)
Inductive event : Type :=
| EvPrint (text : string)
| EvLogInfo (text : string)
| EvS3Download (bucket key : string)
| EvS3Put (data : body) (bucket key : string)
| EvJoblibLoad
| EvPrintModelParameters
| EvModelCall (input : Tensor Q)
| EvProfilerTable.

Definition trace := list event.

(** State (the trace so far) and exceptions. *)
Definition M (A : Type) : Type := trace -> outcome A * trace.

Definition ret {A} (a : A) : M A := fun tr => (Return a, tr).
Definition bind {A B} (m : M A) (k : A -> M B) : M B :=
  fun tr =>
    match m tr with
    | (Return a, tr') => k a tr'
    | (Raise e, tr') => (Raise e, tr')
    end.
Definition emit (ev : event) : M unit := fun tr => (Return tt, tr ++ [ev]).
Definition lift {A} (o : outcome A) : M A := fun tr => (o, tr).

(** [try: m  except Exception as e: h e] *)
Definition try_except {A} (m : M A) (h : exn -> M A) : M A :=
  fun tr =>
    match m tr with
    | (Return a, tr') => (Return a, tr')
    | (Raise e, tr') => h e tr'
    end.

Notation "'let!' x ':=' m 'in' k" := (bind m (fun x => k))
  (at level 10, x pattern, m at level 100, k at level 200).
Notation "'do!' m 'in' k" := (bind m (fun _ => k))
  (at level 10, m at level 100, k at level 200).

(** [print(x)] *)
Definition print (text : string) : M unit := emit (EvPrint text).

(** [io.BytesIO]: a buffer and the current position. *)
Record BytesIO : Type := mk_BytesIO { buffer : bytes; position : Z }.

(** A loaded [torch.nn.Module], as far as [_load_model] touches it. *)
Inductive dtype : Type := float64 | float32 | float16.

Record Module_ : Type := mk_Module {
  parameters : list (Tensor spec_float);
  param_dtype : dtype;
  device : string;
  training : bool
}.

(** What [joblib.load] is given. *)
Inductive joblib_source : Type :=
| FromFileObj (f : option BytesIO)
| FromPath (path : string).

Definition BUCKET_NAME : string := "".
Definition PROJECT_NAME : string := "".

(** *** [resize_image] *)

(** What [resize_image] returns: the tensor it was given, or the result of
    [F.interpolate(batched, size=(new_height, new_width), mode='bilinear')],
    kept as the arguments of that call. *)
Inductive resized (A : Type) : Type :=
| Same (image_tensor : Tensor A)
| Interpolated (batched : Tensor A) (new_height new_width : Tensor Z).
Arguments Same {A} image_tensor.
Arguments Interpolated {A} batched new_height new_width.

(** [min_dimension / height] and [max_dimension / width]: Python's true
    division of two [int]s, read on the rationals. *)
Definition true_div (a b : Z) : outcome Q :=
  if b =? 0 then Raise ZeroDivisionError else Return (inject_Z a / inject_Z b)%Q.

(** The first argument of [torch.where], as a caller passes it: a Python
    [bool] or a tensor of booleans. *)
Inductive condition : Type :=
| PyBool (b : bool)
| BoolTensor (mask : Tensor bool).

(** [torch.where(condition, input, other)] with two Python floats for
    [input] and [other].  The condition has to be a tensor: handed a Python
    [bool], [torch.where] raises a [TypeError].  For a mask it gives the
    tensor of the values selected. *)
Definition where_ (c : condition) (input other : Q) : outcome (Tensor Q) :=
  match c with
  | PyBool _ =>
      Raise (TypeError "where(): argument 'condition' (position 1) must be Tensor, not bool")
  | BoolTensor mask => Return (tensor_map (fun b : bool => if b then input else other) mask)
  end.

(** [bool(t)] of a tensor, as [and] and [if] take it. *)
Definition truth (t : Tensor bool) : outcome bool :=
  match data t with
  | [b] => Return b
  | _ => Raise (RuntimeError "Boolean value of Tensor with more than one value is ambiguous")
  end.

(** [resize_image(image_tensor, min_dimension, max_dimension)], statement by
    statement.  [image_tensor.shape] holds Python [int]s, so [height > width]
    is a Python [bool] and both quotients are Python floats, computed before
    [torch.where] is called.  The statements after line 28 are written for
    the tensor [torch.where] would return. *)
Definition resize_image {A} (image_tensor : Tensor A)
    (min_dimension max_dimension : Z) : outcome (resized A) :=
  match shape image_tensor with
  | [_; height; width] =>
      let? a := true_div min_dimension height in
      let? b := true_div max_dimension width in
      let? scale_factor := where_ (PyBool (height >? width)) a b in
      let new_height :=
        tensor_map (fun f => round_half_even (inject_Z height * f)) scale_factor in
      let new_width :=
        tensor_map (fun f => round_half_even (inject_Z width * f)) scale_factor in
      let? same_width := truth (tensor_map (fun w => w =? width) new_width) in
      let? same :=
        if same_width then truth (tensor_map (fun h => h =? height) new_height)
        else Return false in
      if same then Return (Same image_tensor)
      else
        let? batched := unsqueeze image_tensor (Some 0) in
        Return (Interpolated batched new_height new_width)
  | _ => Raise (ValueError "not enough or too many values to unpack (expected 3)")
  end.

(** The keyword defaults of [resize_image]. *)
Definition default_min_dimension : Z := 768.
Definition default_max_dimension : Z := 1024.

(** *** [image_to_tensor] *)

(** [image_to_tensor(image)], statement by statement.  The source binds
    neither the result of [view] nor that of [permute(...).contiguous()] to
    a name, and calls [unsqueeze] with no argument. *)
Definition image_to_tensor (image : Image) : outcome (Tensor Q) :=
  let image_tensor := from_numpy (np_array_uint8 image) in
  let image_tensor :=
    if String.eqb (mode_name (im_mode image)) "1"
    then imul_uint8 image_tensor 255 else image_tensor in
  let image_channels := Z.of_nat (length (getbands (im_mode image))) in
  let? _ := view image_tensor [height image; width image; image_channels] in
  let? permuted := permute image_tensor [2; 0; 1] in
  let _ := contiguous permuted in
  unsqueeze (div (float image_tensor) 255) None.

(** The tensor on which [image_to_tensor] finally calls [unsqueeze]: the
    array of the image, times 255 for a bilevel image, converted to float
    and divided by 255.  Neither [view] nor [permute] has touched it. *)
Definition normalized (image : Image) : Tensor Q :=
  div (float (if String.eqb (mode_name (im_mode image)) "1"
              then imul_uint8 (from_numpy (np_array_uint8 image)) 255
              else from_numpy (np_array_uint8 image)))
      255.

Section WithCollaborators.

(** The keyword arguments of a job are passed through to the network
    untouched. *)
Context {Kwargs : Type}.

(** The collaborators.  Each answer may depend on what happened before (the
    trace), so a store may fail on one call and succeed on the next. *)
Record Env : Type := mk_Env {
  (** [s3.download_fileobj(bucket, key, fileobj)]: the bytes written *)
  s3_download_fileobj : trace -> string -> string -> outcome bytes;
  (** [s3.put_object(Body=, Bucket=, Key=)] *)
  s3_put_object : trace -> body -> string -> string -> outcome unit;
  (** [Image.open(io.BytesIO(data))] *)
  Image_open : bytes -> outcome Image;
  (** [self.model(image_tensor, **kwargs)] *)
  model_forward : Tensor Q -> Kwargs -> outcome (Tensor Q);
  (** [joblib.load] of a readable file object or of a path *)
  joblib_load : joblib_source -> outcome Module_;
  (** [kfastml.utils.print_model_parameters], not among the sources: it
      prints and leaves the module as it is *)
  print_model_parameters : Module_ -> outcome unit;
  (** whether [module.to(device)] succeeds *)
  device_available : string -> bool
}.

Variable env : Env.

(** *** [download_from_s3] and [upload_to_s3] *)

Definition download_fileobj (bucket key : string) : M bytes :=
  fun tr => (s3_download_fileobj env tr bucket key, tr ++ [EvS3Download bucket key]).

Definition put_object (data : body) (bucket key : string) : M unit :=
  fun tr => (s3_put_object env tr data bucket key, tr ++ [EvS3Put data bucket key]).

Definition download_from_s3 (bucket object_path : string) : M (option BytesIO) :=
  try_except
    (let file_data := mk_BytesIO [] 0 in
     let! written := download_fileobj bucket object_path in
     let file_data :=
       mk_BytesIO (buffer file_data ++ written) (Z.of_nat (length written)) in
     let file_data := mk_BytesIO (buffer file_data) 0 in
     ret (Some file_data))
    (fun e => do! print (exn_str e) in ret None).

Definition upload_to_s3 (data : body) (bucket object_path : string) : M (option string) :=
  try_except
    (do! put_object data bucket object_path in
     ret (Some ("s3://" +:+ bucket +:+ "/" +:+ object_path)))
    (fun e => do! print (exn_str e) in ret None).

(** *** [ImageToImageModelCleanupServer._image_to_image] *)

(** One result of awaiting a future of [download_uris_async]: the reference
    and the payload, [None] when the fetch failed. *)
Definition fetched := (string * option bytes)%type.

Definition uri_lists := (list (option string) * list (option string))%type.

(** The last two statements of the loop body: the two uploads and the two
    [append]s; [acc] holds [src_images_uri] and [result_images_uri]. *)
Definition store_pair (acc : uri_lists) (image_uri : string)
    (image_tensor predicted : Tensor Q) : M uri_lists :=
  let '(src_images_uri, result_images_uri) := acc in
  let! original_uri :=
    upload_to_s3 (BodyTensor image_tensor) BUCKET_NAME (image_uri +:+ "_original.png") in
  let src_images_uri := src_images_uri ++ [original_uri] in
  let! predicted_uri :=
    upload_to_s3 (BodyTensor predicted) BUCKET_NAME (image_uri +:+ "_predicted.png") in
  let result_images_uri := result_images_uri ++ [predicted_uri] in
  ret (src_images_uri, result_images_uri).

(** The body of the [for] loop. *)
Definition loop_body (kwargs : Kwargs) (acc : uri_lists) (item : fetched) : M uri_lists :=
  let '(image_uri, image_data) := item in
  match image_data with
  | None => ret acc
  | Some image_data =>
      let! image := lift (Image_open env image_data) in
      let! image_tensor := lift (image_to_tensor image) in
      do! emit (EvModelCall image_tensor) in
      let! predicted := lift (model_forward env image_tensor kwargs) in
      do! emit EvProfilerTable in
      store_pair acc image_uri image_tensor predicted
  end.

Fixpoint for_each {S X} (f : S -> X -> M S) (s : S) (xs : list X) : M S :=
  match xs with
  | [] => ret s
  | x :: rest => let! s' := f s x in for_each f s' rest
  end.

(** [completed] lists what [asyncio.as_completed(download_uris_async(images))]
    yields, in the order the downloads finish. *)
Definition _image_to_image (request_id : string) (completed : list fetched)
    (kwargs : Kwargs) : M (gmap string (list (option string))) :=
  let! lists := for_each (loop_body kwargs) ([], []) completed in
  let '(src_images_uri, result_images_uri) := lists in
  ret (<["cleaned_images_uri" := result_images_uri]>
       (<["images_uri" := src_images_uri]> ∅)).

(** *** [ImageToImageModelCleanupServer._load_model] *)

(** [s.split(sep)] and [s.split(sep, maxsplit)] for a separator that is not
    empty: [skip] counts the characters of a separator still to be passed
    over, [cur] is the piece being collected. *)
Fixpoint split_go (sep : string) (maxsplit : option nat) (skip : nat)
    (cur : string) (s : string) {struct s} : list string :=
  match s with
  | EmptyString => [cur]
  | String c rest =>
      match skip with
      | S k => split_go sep maxsplit k cur rest
      | O =>
          match maxsplit with
          | Some O => [cur +:+ s]
          | _ =>
              if String.prefix sep s
              then cur :: split_go sep (Nat.pred <$> maxsplit)
                            (Nat.pred (String.length sep)) EmptyString rest
              else split_go sep maxsplit O (cur +:+ String c EmptyString) rest
          end
      end
  end.

Definition split (s sep : string) (maxsplit : option nat) : list string :=
  split_go sep maxsplit O EmptyString s.

(** [s.startswith(prefix)] *)
Definition startswith (s prefix : string) : bool := String.prefix prefix s.

(** [xs[i]] *)
Definition getitem {A} (xs : list A) (i : nat) : outcome A :=
  match nth_error xs i with
  | Some x => Return x
  | None => Raise (IndexError "list index out of range")
  end.

(** [a, b = xs] *)
Definition unpack2 {A} (xs : list A) : outcome (A * A) :=
  match xs with
  | [a; b] => Return (a, b)
  | _ => Raise (ValueError "wrong number of values to unpack (expected 2)")
  end.

Record ModelServer : Type := mk_ModelServer {
  model_type : string;
  model_uri : string;
  model_device : string;
  model : option Module_
}.

(** [eps = 1e-5]: a Python float, the binary64 number
    [5902958103587057 * 2^-69]. *)
Definition eps : spec_float := S754_finite false 5902958103587057 (-69).

(** A number converted to a dtype, rounding to the nearest, ties to even. *)
Definition cast (d : dtype) (x : spec_float) : spec_float :=
  match x with
  | S754_finite s m e =>
      match d with
      | float64 => binary_round 53 1024 s m e
      | float32 => binary_round 24 128 s m e
      | float16 => binary_round 11 16 s m e
      end
  | _ => x
  end.

(** The rational a zero or a finite float stands for; [-0] stands for 0. *)
Definition value (x : spec_float) : option Q :=
  match x with
  | S754_zero _ => Some 0%Q
  | S754_finite s m e =>
      Some ((if s then -1 else 1) * inject_Z (Z.pos m) * (2 # 1) ^ e)%Q
  | S754_infinity _ | S754_nan => None
  end.

Definition Qltb (p q : Q) : bool := negb (Qle_bool q p).

(** [abs(x) < c], by the numbers the two floats stand for, whatever the
    precision they are held in; false when one of them is a NaN. *)
Definition abs_lt (x c : spec_float) : bool :=
  match x, c with
  | S754_nan, _ | _, S754_nan => false
  | S754_infinity _, _ => false
  | _, S754_infinity s => negb s
  | _, _ =>
      match value (SFabs x), value c with
      | Some q, Some r => Qltb q r
      | _, _ => false
      end
  end.

(** [torch.where(torch.abs(param) < eps, torch.zeros_like(param), param)],
    element by element, for a parameter of dtype [d]: the mask is a tensor,
    so [torch.where] selects; the comparison of a tensor with the Python
    float [eps] is made in the dtype of the tensor, to which [eps] is
    converted. *)
Definition denorm_clean_value (d : dtype) (x : spec_float) : spec_float :=
  if abs_lt x (cast d eps) then S754_zero false else x.

(** The loop under [# Handle float denorm]. *)
Definition handle_float_denorm (m : Module_) : Module_ :=
  {| parameters := map (tensor_map (denorm_clean_value (param_dtype m))) (parameters m);
     param_dtype := param_dtype m;
     device := device m;
     training := training m |}.

(** Conversion of one element to IEEE binary16, rounding to nearest even. *)
Definition half_value (x : spec_float) : spec_float :=
  match x with
  | S754_finite s m e => binary_round 11 16 s m e
  | _ => x
  end.

(** [module.half()] *)
Definition half (m : Module_) : Module_ :=
  {| parameters := map (tensor_map half_value) (parameters m);
     param_dtype := float16;
     device := device m;
     training := training m |}.

(** [module.to(target)] *)
Definition to (m : Module_) (target : string) : outcome Module_ :=
  if device_available env target then
    Return {| parameters := parameters m;
              param_dtype := param_dtype m;
              device := target;
              training := training m |}
  else Raise (RuntimeError "device is not available").

(** [module.eval()] *)
Definition eval (m : Module_) : Module_ :=
  {| parameters := parameters m;
     param_dtype := param_dtype m;
     device := device m;
     training := false |}.

(** [joblib.load(source)]; a source that is [None] cannot be opened. *)
Definition joblib_load_call (source : joblib_source) : M Module_ :=
  do! emit EvJoblibLoad in
  lift match source with
       | FromFileObj None =>
           Raise (TypeError "expected str, bytes or os.PathLike object, not NoneType")
       | _ => joblib_load env source
       end.

(** The first statement group of [_load_model]: from [model_uri] to the
    deserialized module. *)
Definition deserialize (self : ModelServer) : M Module_ :=
  if startswith (model_uri self) "s3://" then
    let! rest := lift (getitem (split (model_uri self) "//" None) 1) in
    let! bucket_path := lift (unpack2 (split rest "/" (Some 1%nat))) in
    let! file_data := download_from_s3 (fst bucket_path) (snd bucket_path) in
    joblib_load_call (FromFileObj file_data)
  else joblib_load_call (FromPath (model_uri self)).

Definition _load_model (self : ModelServer) : M ModelServer :=
  do! emit (EvLogInfo ("Loading Model " +:+ model_uri self)) in
  let! loaded := deserialize self in
  do! emit EvPrintModelParameters in
  do! lift (print_model_parameters env loaded) in
  let cleaned := handle_float_denorm loaded in
  let! moved := lift (to (half cleaned) "cuda:0") in
  let final := eval moved in
  ret {| model_type := model_type self;
         model_uri := model_uri self;
         model_device := model_device self;
         model := Some final |}.

End WithCollaborators.

Arguments Env : clear implicits.

(** The dictionary [_image_to_image] returns when nothing was stored. *)
Definition empty_result : gmap string (list (option string)) :=
  <["cleaned_images_uri" := []]> (<["images_uri" := []]> ∅).

(** Whether every download of a job failed. *)
Definition all_failed (completed : list fetched) : bool :=
  forallb (fun item => match snd item with None => true | Some _ => false end) completed.

(** Whether the download of an item succeeded. *)
Definition was_fetched (item : fetched) : bool :=
  match snd item with Some _ => true | None => false end.

(** What one entry of an output list may be, for an item and a key suffix. *)
Definition entry_for (suffix : string) (item : fetched) (entry : option string) : Prop :=
  entry = None \/
  entry = Some ("s3://" +:+ BUCKET_NAME +:+ "/" +:+ fst item +:+ suffix).

(** [sub in s] *)
Fixpoint contains (sub s : string) : bool :=
  match s with
  | EmptyString => String.prefix sub EmptyString
  | String _ rest => String.prefix sub s || contains sub rest
  end.

(** The [put_object] requests recorded in a trace. *)
Definition puts (tr : trace) : list (body * string * string) :=
  flat_map (fun ev => match ev with
                      | EvS3Put data bucket key => [(data, bucket, key)]
                      | _ => []
                      end) tr.

End Server.

(** ** Concrete inputs used by the examples below *)

Module Fixtures.
Import Api Server.
Local Open Scope Z_scope.

(** Two draws of [os.urandom(16)] that differ only in the high nibble of
    byte 6, which [uuid4] overwrites with the version. *)
Definition draw_a : list Byte.byte :=
  [Byte.x12; Byte.x34; Byte.x56; Byte.x78; Byte.x9a; Byte.xbc; Byte.x0d; Byte.xef;
   Byte.x01; Byte.x23; Byte.x45; Byte.x67; Byte.x89; Byte.xab; Byte.xcd; Byte.xef].
Definition draw_b : list Byte.byte :=
  [Byte.x12; Byte.x34; Byte.x56; Byte.x78; Byte.x9a; Byte.xbc; Byte.xfd; Byte.xef;
   Byte.x01; Byte.x23; Byte.x45; Byte.x67; Byte.x89; Byte.xab; Byte.xcd; Byte.xef].
(** A third draw, with another low byte. *)
Definition draw_c : list Byte.byte :=
  [Byte.x12; Byte.x34; Byte.x56; Byte.x78; Byte.x9a; Byte.xbc; Byte.x0d; Byte.xef;
   Byte.x01; Byte.x23; Byte.x45; Byte.x67; Byte.x89; Byte.xab; Byte.xcd; Byte.xee].





(** A 3 x 800 x 900 tensor (channels, height, width): both sides lie
    between 768 and 1024. *)
Definition tensor_800_900 : Tensor Z :=
  mk_Tensor [3; 800; 900] (repeat 0 (Z.to_nat (3 * 800 * 900))).

(** float32 values: 3e-6, -3e-6, a value just below [eps] (about 9.99e-6),
    and 0.5. *)
Definition f32_3em6 : spec_float := S754_finite false 13194140 (-42).
Definition f32_minus_3em6 : spec_float := S754_finite true 13194140 (-42).
Definition f32_just_below_eps : spec_float := S754_finite false 10983834 (-40).
Definition f32_half : spec_float := S754_finite false 8388608 (-24).

(** [eps] converted to single precision, 10995116 * 2^-40, a little less
    than 1e-5, and to half precision, 168 * 2^-24. *)
Definition f32_eps : spec_float := Eval vm_compute in cast float32 eps.
Definition eps_half : spec_float := Eval vm_compute in half_value eps.

Definition wdnet : Module_ :=
  mk_Module
    [mk_Tensor [2; 2] [f32_3em6; f32_half; f32_minus_3em6; f32_just_below_eps]]
    float32 "cpu" true.

(** A float32 module whose one parameter holds [eps] in single precision. *)
Definition wdnet_at_eps : Module_ :=
  mk_Module [mk_Tensor [1] [f32_eps]] float32 "cpu" true.

(** A 2 x 1 RGB image, a 2 x 1 greyscale image and a 2 x 1 bilevel image. *)
Definition rgb_image : Image := mk_Image Mode_RGB 2 1 [255; 0; 0; 0; 128; 255].
Definition grey_image : Image := mk_Image Mode_L 2 1 [7; 200].
Definition bilevel_image : Image := mk_Image Mode_1 2 1 [1; 0].

(** The encoded bytes of [rgb_image] and of [grey_image] (their content does
    not matter here: [Image_open] of the collaborators below decodes the
    first to [rgb_image], the second to [grey_image]). *)
Definition rgb_png : bytes := [Byte.x89; Byte.x50; Byte.x4e; Byte.x47; Byte.x02].
Definition grey_png : bytes := [Byte.x89; Byte.x50; Byte.x4e; Byte.x47; Byte.x00].

Definition decode (payload : bytes) : outcome Image :=
  match payload with
  | [Byte.x89; Byte.x50; Byte.x4e; Byte.x47; Byte.x02] => Return rgb_image
  | [Byte.x89; Byte.x50; Byte.x4e; Byte.x47; Byte.x00] => Return grey_image
  | _ => Raise UnidentifiedImageError
  end.

(** Collaborators that all succeed: the store accepts every object, the
    network echoes its input, joblib yields [wdnet], the device exists. *)
Definition env_ok : Env unit :=
  {| s3_download_fileobj := fun _ _ _ => Return [Byte.x80; Byte.x04];
     s3_put_object := fun _ _ _ _ => Return tt;
     Image_open := decode;
     model_forward := fun t _ => Return t;
     joblib_load := fun _ => Return wdnet;
     print_model_parameters := fun _ => Return tt;
     device_available := fun _ => true |}.

(** The same, with [wdnet_at_eps] for the module that joblib yields. *)
Definition env_at_eps : Env unit :=
  {| s3_download_fileobj := fun _ _ _ => Return [Byte.x80; Byte.x04];
     s3_put_object := fun _ _ _ _ => Return tt;
     Image_open := decode;
     model_forward := fun t _ => Return t;
     joblib_load := fun _ => Return wdnet_at_eps;
     print_model_parameters := fun _ => Return tt;
     device_available := fun _ => true |}.

(** The same, with a store that refuses every request. *)
Definition env_store_down : Env unit :=
  {| s3_download_fileobj := fun _ _ _ => Raise (ClientError "AccessDenied");
     s3_put_object := fun _ _ _ _ => Raise (ClientError "AccessDenied");
     Image_open := decode;
     model_forward := fun t _ => Return t;
     joblib_load := fun _ => Return wdnet;
     print_model_parameters := fun _ => Return tt;
     device_available := fun _ => true |}.

(** The same as [env_ok], on a machine without a CUDA device. *)
Definition env_cpu_only : Env unit :=
  {| s3_download_fileobj := fun _ _ _ => Return [Byte.x80; Byte.x04];
     s3_put_object := fun _ _ _ _ => Return tt;
     Image_open := decode;
     model_forward := fun t _ => Return t;
     joblib_load := fun _ => Return wdnet;
     print_model_parameters := fun _ => Return tt;
     device_available := fun d => String.eqb d "cpu" |}.

Definition server_local : ModelServer :=
  mk_ModelServer "image_to_image" "wdnet_v0.1" "cpu" None.
Definition server_s3 : ModelServer :=
  mk_ModelServer "image_to_image" "s3://models/wdnet/v0.1.joblib" "cpu" None.
(** Locators with a bucket only, and with a doubled [/] in the key. *)
Definition server_s3_bucket_only : ModelServer :=
  mk_ModelServer "image_to_image" "s3://models" "cpu" None.
Definition server_s3_doubled : ModelServer :=
  mk_ModelServer "image_to_image" "s3://models/wdnet//v0.1.joblib" "cpu" None.

End Fixtures.

(** ** Strings *)

Module StringFacts.

Lemma append_cons (c : ascii) (s t : string) : String c s +:+ t = String c (s +:+ t).
Proof. reflexivity. Qed.

Lemma append_empty_l (t : string) : EmptyString +:+ t = t.
Proof. reflexivity. Qed.

Lemma append_empty_r (s : string) : s +:+ EmptyString = s.
Proof.
  induction s as [| c s IH]; [reflexivity |]. now rewrite append_cons, IH.
Qed.

Lemma append_assoc (a b c : string) : (a +:+ b) +:+ c = a +:+ (b +:+ c).
Proof.
  induction a as [| x a IH]; [reflexivity |]. now rewrite !append_cons, IH.
Qed.

Lemma length_append (a b : string) :
  String.length (a +:+ b) = (String.length a + String.length b)%nat.
Proof.
  induction a as [| c a IH]; [reflexivity |].
  rewrite append_cons. cbn [String.length]. now rewrite IH.
Qed.

End StringFacts.

(** ** Properties of kfastml/utils/api.py *)

Module ApiFacts.
Import Api StringFacts.
Local Open Scope Z_scope.

Lemma hex_digit_code (d : Z) :
  0 <= d < 16 ->
  Z.of_N (N_of_ascii (hex_digit d)) = if d <? 10 then 48 + d else 87 + d.
Proof.
  intros Hd.
  assert (Hcases : d = 0 \/ d = 1 \/ d = 2 \/ d = 3 \/ d = 4 \/ d = 5 \/ d = 6 \/ d = 7 \/
                   d = 8 \/ d = 9 \/ d = 10 \/ d = 11 \/ d = 12 \/ d = 13 \/ d = 14 \/ d = 15)
    by lia.
  repeat (destruct Hcases as [-> | Hcases]; [reflexivity |]).
  subst d. reflexivity.
Qed.

Lemma hex_digit_inj (a b : Z) :
  0 <= a < 16 -> 0 <= b < 16 -> hex_digit a = hex_digit b -> a = b.
Proof.
  intros Ha Hb Heq.
  pose proof (hex_digit_code a Ha) as Ca.
  pose proof (hex_digit_code b Hb) as Cb.
  rewrite Heq in Ca. rewrite Ca in Cb.
  destruct (a <? 10) eqn:Ea, (b <? 10) eqn:Eb; lia.
Qed.

Lemma hex_digit_is_hex (d : Z) : 0 <= d < 16 -> is_hex_char (hex_digit d) = true.
Proof.
  intros Hd. unfold is_hex_char. cbv zeta. rewrite (hex_digit_code d Hd).
  destruct (d <? 10) eqn:E; lia.
Qed.

Lemma hex_fixed_length (n : nat) (z : Z) : String.length (hex_fixed n z) = n.
Proof. induction n as [|k IH]; simpl; [reflexivity | now rewrite IH]. Qed.

Lemma hex_fixed_is_hex (n : nat) (z : Z) :
  string_forallb is_hex_char (hex_fixed n z) = true.
Proof.
  induction n as [|k IH]; simpl; [reflexivity |].
  rewrite IH, hex_digit_is_hex; [reflexivity |].
  apply Z.mod_pos_bound. lia.
Qed.

(** The digits determine the number up to [16^n]. *)
Lemma hex_fixed_mod_inj (n : nat) (a b : Z) :
  hex_fixed n a = hex_fixed n b -> a mod 16 ^ Z.of_nat n = b mod 16 ^ Z.of_nat n.
Proof.
  induction n as [|k IH]; intros Heq.
  - simpl. now rewrite !Z.mod_1_r.
  - simpl in Heq. injection Heq as Hhead Htail.
    apply hex_digit_inj in Hhead; try (apply Z.mod_pos_bound; lia).
    specialize (IH Htail).
    rewrite Nat2Z.inj_succ, Z.pow_succ_r by lia.
    rewrite (Z.mul_comm 16).
    rewrite !Z.rem_mul_r by lia.
    now rewrite IH, Hhead.
Qed.

Lemma hex_fixed_inj (n : nat) (a b : Z) :
  0 <= a < 16 ^ Z.of_nat n -> 0 <= b < 16 ^ Z.of_nat n ->
  hex_fixed n a = hex_fixed n b -> a = b.
Proof.
  intros Ha Hb Heq. apply hex_fixed_mod_inj in Heq.
  now rewrite !Z.mod_small in Heq.
Qed.

Lemma int_from_bytes_acc (b : list Byte.byte) (acc : Z) :
  fold_left (fun a x => a * 256 + Z.of_N (Byte.to_N x)) b acc =
  acc * 256 ^ Z.of_nat (length b) + int_from_bytes b.
Proof.
  unfold int_from_bytes. revert acc.
  induction b as [|x b IH]; intros acc.
  - simpl. lia.
  - cbn [fold_left length]. rewrite IH, (IH (0 * 256 + _)).
    rewrite Nat2Z.inj_succ, Z.pow_succ_r by lia. ring.
Qed.

Lemma byte_range (x : Byte.byte) : 0 <= Z.of_N (Byte.to_N x) < 256.
Proof. pose proof (Byte.to_N_bounded x). lia. Qed.

Lemma int_from_bytes_range (b : list Byte.byte) :
  0 <= int_from_bytes b < 256 ^ Z.of_nat (length b).
Proof.
  induction b as [|x b IH].
  - unfold int_from_bytes. simpl. lia.
  - unfold int_from_bytes. cbn [fold_left length].
    rewrite int_from_bytes_acc.
    rewrite Nat2Z.inj_succ, Z.pow_succ_r by lia.
    pose proof (byte_range x). nia.
Qed.

(** A version-4 UUID is a 128-bit number. *)
Lemma uuid4_range (r : list Byte.byte) :
  length r = 16%nat -> 0 <= uuid4 r < 2 ^ 128.
Proof.
  intros Hlen.
  pose proof (int_from_bytes_range r) as Hr. rewrite Hlen in Hr.
  change (256 ^ Z.of_nat 16) with (2 ^ 128) in Hr.
  unfold uuid4. cbv zeta.
  set (i := int_from_bytes r) in *.
  assert (Hnonneg : 0 <= Z.lor (Z.land (Z.lor (Z.land i (Z.lnot (Z.shiftl 0xc000 48)))
                                         (Z.shiftl 0x8000 48))
                                  (Z.lnot (Z.shiftl 0xf000 64)))
                            (Z.shiftl 4 76)).
  { apply Z.lor_nonneg. split; [| now vm_compute].
    apply Z.land_nonneg. left. apply Z.lor_nonneg. split; [| now vm_compute].
    apply Z.land_nonneg. left. lia. }
  apply (Z.bounded_iff_bits_nonneg' 128); [lia | exact Hnonneg |].
  intros l Hl.
  assert (Hi : Z.testbit i l = false).
  { apply (proj1 (Z.bounded_iff_bits_nonneg' 128 i ltac:(lia) ltac:(lia)) Hr l Hl). }
  rewrite Z.lor_spec, Z.land_spec, Z.lor_spec, Z.land_spec, Hi.
  assert (Hvariant : Z.testbit (Z.shiftl 0x8000 48) l = false).
  { apply Z.bits_above_log2; [now vm_compute |].
    change (Z.log2 (Z.shiftl 0x8000 48)) with 63. lia. }
  assert (Hversion : Z.testbit (Z.shiftl 4 76) l = false).
  { apply Z.bits_above_log2; [now vm_compute |].
    change (Z.log2 (Z.shiftl 4 76)) with 78. lia. }
  now rewrite Hvariant, Hversion.
Qed.

Lemma append_cancel_l (s a b : string) : s +:+ a = s +:+ b -> a = b.
Proof.
  induction s as [|c s IH]; simpl; intros H; [exact H |].
  injection H as H. now apply IH.
Qed.

(** For one api name, two ids are equal exactly when the two UUIDs are. *)
Lemma gen_request_id_eq_iff (api_name : string) (r1 r2 : list Byte.byte) :
  length r1 = 16%nat -> length r2 = 16%nat ->
  gen_request_id r1 api_name = gen_request_id r2 api_name <-> uuid4 r1 = uuid4 r2.
Proof.
  intros H1 H2. unfold gen_request_id, uuid_hex. split.
  - intros Heq. apply append_cancel_l in Heq. apply append_cancel_l in Heq.
    apply (hex_fixed_inj 32); [| | exact Heq].
    + change (16 ^ Z.of_nat 32) with (2 ^ 128). now apply uuid4_range.
    + change (16 ^ Z.of_nat 32) with (2 ^ 128). now apply uuid4_range.
  - now intros ->.
Qed.

Lemma NoDup_map_inj_on {A B} (f : A -> B) (l : list A) :
  (forall x y, In x l -> In y l -> f x = f y -> x = y) ->
  NoDup (map f l) <-> NoDup l.
Proof.
  induction l as [|a l IH]; intros Hinj; simpl.
  - split; intros _; constructor.
  - rewrite !NoDup_cons, IH by (intros x y Hx Hy; apply Hinj; now right).
    assert (Hmem : f a ∈ map f l <-> a ∈ l).
    { rewrite !list_elem_of_In, in_map_iff. split.
      - intros (x & Hfx & Hx).
        assert (x = a) as <- by (apply Hinj; [now right | now left | exact Hfx]).
        exact Hx.
      - intros Ha. now exists a. }
    now rewrite Hmem.
Qed.

Section GenRequestId.

Variable api_name : string.
Variable draws : list (list Byte.byte).
Hypothesis draws_are_16_bytes : Forall (fun r => length r = 16%nat) draws.

Lemma request_ids_factor :
  map (fun r => gen_request_id r api_name) draws =
  map (fun u => api_name +:+ "_" +:+ uuid_hex u) (map uuid4 draws).
Proof. now rewrite map_map. Qed.

(** C8, as amended: every id is the api name, an underscore and the 32
    lower-case hexadecimal digits of a version-4 UUID; and the ids of a series
    of calls with one api name are pairwise distinct exactly when the UUIDs
    drawn for them are pairwise distinct. *)
Theorem gen_request_id_format_and_distinctness :
  Forall (fun r => exists token,
            gen_request_id r api_name = api_name +:+ "_" +:+ token /\
            String.length token = 32%nat /\
            string_forallb is_hex_char token = true) draws /\
  (NoDup (map (fun r => gen_request_id r api_name) draws) <-> NoDup (map uuid4 draws)).
Proof.
  split.
  - apply Forall_forall. intros r _. exists (uuid_hex (uuid4 r)).
    unfold uuid_hex. split; [reflexivity |].
    split; [apply hex_fixed_length | apply hex_fixed_is_hex].
  - rewrite request_ids_factor. apply NoDup_map_inj_on.
    intros u v Hu Hv Heq.
    apply in_map_iff in Hu as (r1 & <- & Hr1).
    apply in_map_iff in Hv as (r2 & <- & Hr2).
    pose proof (proj1 (Forall_forall _ _) draws_are_16_bytes) as Hlen.
    apply (gen_request_id_eq_iff api_name); auto.
    + apply Hlen. now apply list_elem_of_In.
    + apply Hlen. now apply list_elem_of_In.
Qed.

End GenRequestId.

Lemma gen_request_id_format_and_distinctness_witness :
  NoDup (map (fun r => gen_request_id r "api") [Fixtures.draw_a; Fixtures.draw_c]).
Proof.
  apply (proj2 (gen_request_id_format_and_distinctness "api"
                  [Fixtures.draw_a; Fixtures.draw_c]
                  ltac:(repeat constructor))).
  apply (bool_decide_unpack _). vm_compute. exact I.
Defined.

(** C8 as stated fails: two calls whose sixteen random bytes differ only in
    the bits that [uuid4] overwrites get the same id. *)
Lemma gen_request_id_not_always_distinct :
  ~ (forall (api_name : string) (draws : list (list Byte.byte)),
       Forall (fun r => length r = 16%nat) draws -> NoDup draws ->
       NoDup (map (fun r => gen_request_id r api_name) draws)).
Proof.
  intros Hclaim.
  assert (Hdraws : NoDup [Fixtures.draw_a; Fixtures.draw_b]).
  { apply NoDup_cons. split; [| apply NoDup_singleton].
    intros Hin. apply list_elem_of_singleton in Hin.
    unfold Fixtures.draw_a, Fixtures.draw_b in Hin. discriminate Hin. }
  specialize (Hclaim "api"%string [Fixtures.draw_a; Fixtures.draw_b]
                ltac:(repeat constructor) Hdraws).
  apply NoDup_cons in Hclaim as [Hnotin _].
  apply Hnotin. vm_compute. constructor.
Qed.

(** *** [json.dumps] and the decoder *)




(** *** Integers *)










(** *** Values *)










Section RoundTrip.

Variable float_repr : spec_float -> string.







End RoundTrip.


(** *** What [json.dumps] renders *)



Section Renders.

Variable float_repr : spec_float -> string.





End Renders.

(** *** The response envelope *)


Section Envelope.

Variable float_repr : spec_float -> string.

(** [build_json_response], step by step: the two fields are rendered, in
    this order, and the body is the object with the four members. *)
Lemma build_json_response_run (now : datetime) (request_id : string)
    (job_result : InferenceTaskResult) :
  build_json_response float_repr now request_id job_result =
  let? f := json_dumps float_repr (finished_reason job_result) in
  let? x := json_dumps float_repr (result job_result) in
  Return {| body :=
              "{" +:+ encode_basestring "created" +:+ ":" +:+
              encode_basestring (datetime_str now) +:+ "," +:+
              encode_basestring "id" +:+ ":" +:+ encode_basestring request_id +:+ "," +:+
              encode_basestring "finished_reason" +:+ ":" +:+ f +:+ "," +:+
              encode_basestring "result" +:+ ":" +:+ x +:+ "}";
            status_code := 200;
            media_type := "application/json" |}.
Proof.
  unfold build_json_response, JSONResponse_new, envelope.
  cbn [json_dumps map fst snd key_text].
  destruct (json_dumps float_repr (finished_reason job_result)) as [f | e];
    [| reflexivity].
  destruct (json_dumps float_repr (result job_result)) as [x | e]; [| reflexivity].
  cbn [obind join]. rewrite !append_assoc. reflexivity.
Qed.



End Envelope.




End ApiFacts.

(** ** Properties of prebuilt_apps/watermark_removal/model_server.py *)

Module ServerFacts.
Import Server.
Local Open Scope Z_scope.

(** *** [download_from_s3] and [upload_to_s3] *)

Section Storage.

Context {Kwargs : Type} (env : Env Kwargs).

Lemma download_from_s3_run bucket object_path tr :
  download_from_s3 env bucket object_path tr =
  match s3_download_fileobj env tr bucket object_path with
  | Return written =>
      (Return (Some (mk_BytesIO written 0)), tr ++ [EvS3Download bucket object_path])
  | Raise e =>
      (Return None, (tr ++ [EvS3Download bucket object_path]) ++ [EvPrint (exn_str e)])
  end.
Proof.
  unfold download_from_s3, try_except, bind, download_fileobj, print, emit, ret.
  destruct (s3_download_fileobj env tr bucket object_path); reflexivity.
Qed.

Lemma upload_to_s3_run data bucket object_path tr :
  upload_to_s3 env data bucket object_path tr =
  match s3_put_object env tr data bucket object_path with
  | Return _ =>
      (Return (Some ("s3://" +:+ bucket +:+ "/" +:+ object_path)),
       tr ++ [EvS3Put data bucket object_path])
  | Raise e =>
      (Return None, (tr ++ [EvS3Put data bucket object_path]) ++ [EvPrint (exn_str e)])
  end.
Proof.
  unfold upload_to_s3, try_except, bind, put_object, print, emit, ret.
  destruct (s3_put_object env tr data bucket object_path); reflexivity.
Qed.

(** C5: whatever the store does, [download_from_s3] returns the downloaded
    bytes (a [BytesIO] rewound to its start) or [None], and [upload_to_s3]
    returns the locator [s3://{bucket}/{object_path}] or [None]; neither
    raises. *)
Theorem s3_helpers_never_raise (tr : trace) :
  (forall bucket object_path, exists r tr',
      download_from_s3 env bucket object_path tr = (Return r, tr') /\
      match s3_download_fileobj env tr bucket object_path with
      | Return written => r = Some (mk_BytesIO written 0)
      | Raise _ => r = None
      end) /\
  (forall data bucket object_path, exists r tr',
      upload_to_s3 env data bucket object_path tr = (Return r, tr') /\
      match s3_put_object env tr data bucket object_path with
      | Return _ => r = Some ("s3://" +:+ bucket +:+ "/" +:+ object_path)
      | Raise _ => r = None
      end).
Proof.
  split.
  - intros bucket object_path. rewrite download_from_s3_run.
    destruct (s3_download_fileobj env tr bucket object_path); eauto.
  - intros data bucket object_path. rewrite upload_to_s3_run.
    destruct (s3_put_object env tr data bucket object_path); eauto.
Qed.

End Storage.

(** *** [resize_image] *)

Lemma where_python_bool (b : bool) (input other : Q) :
  where_ (PyBool b) input other
  = Raise (TypeError "where(): argument 'condition' (position 1) must be Tensor, not bool").
Proof. reflexivity. Qed.

(** C2 fails on the code: [resize_image] returns for no tensor at all, so it
    hands no tensor back unchanged.  A tensor with three axes and sides that
    are not zero gets as far as line 28, where [torch.where] is called with
    the Python [bool] [height > width] for a condition and raises a
    [TypeError]; any other tensor fails before, at the unpacking of its
    shape or at one of the two divisions. *)
Theorem resize_image_never_returns {A : Type} (image_tensor : Tensor A)
    (min_dimension max_dimension : Z) :
  (exists e, resize_image image_tensor min_dimension max_dimension = Raise e) /\
  (forall c height width,
     shape image_tensor = [c; height; width] -> height <> 0 -> width <> 0 ->
     resize_image image_tensor min_dimension max_dimension
     = Raise (TypeError "where(): argument 'condition' (position 1) must be Tensor, not bool")).
Proof.
  assert (Hsides : forall c height width,
            shape image_tensor = [c; height; width] -> height <> 0 -> width <> 0 ->
            resize_image image_tensor min_dimension max_dimension
            = Raise (TypeError "where(): argument 'condition' (position 1) must be Tensor, not bool")).
  { intros c height width Hshape Hh Hw. unfold resize_image, true_div. rewrite Hshape.
    destruct (Z.eqb_spec height 0) as [Heq | _]; [contradiction |].
    destruct (Z.eqb_spec width 0) as [Heq | _]; [contradiction |].
    cbn [obind]. now rewrite where_python_bool. }
  split; [| exact Hsides].
  destruct (shape image_tensor) as [| c [| height [| width [| extra more]]]] eqn:Hshape;
    try (unfold resize_image; rewrite Hshape; eauto; fail).
  destruct (Z.eq_dec height 0) as [Hh | Hh];
    [unfold resize_image, true_div; rewrite Hshape, Hh; cbn; eauto |].
  destruct (Z.eq_dec width 0) as [Hw | Hw].
  - unfold resize_image, true_div. rewrite Hshape, Hw.
    destruct (height =? 0); cbn; eauto.
  - rewrite (Hsides c height width eq_refl Hh Hw). eauto.
Qed.

(** The failing input of C2: both sides of a 3 x 800 x 900 tensor lie
    between 768 and 1024, and the call raises. *)
Example resize_image_800_900 :
  resize_image Fixtures.tensor_800_900 default_min_dimension default_max_dimension
  = Raise (TypeError "where(): argument 'condition' (position 1) must be Tensor, not bool").
Proof. reflexivity. Qed.

(** *** [_load_model] *)

Lemma half_value_zero (s : bool) : half_value (S754_zero s) = S754_zero s.
Proof. reflexivity. Qed.

Lemma denorm_clean_value_small (d : dtype) (x : spec_float) :
  abs_lt x (cast d eps) = true -> denorm_clean_value d x = S754_zero false.
Proof. intros Hsmall. unfold denorm_clean_value. now rewrite Hsmall. Qed.

Lemma denorm_clean_value_kept (d : dtype) (x : spec_float) :
  abs_lt x (cast d eps) = false -> denorm_clean_value d x = x.
Proof. intros Hbig. unfold denorm_clean_value. now rewrite Hbig. Qed.

(** [eps] in each dtype. *)
Example eps_in_each_dtype :
  cast float64 eps = eps /\
  cast float32 eps = S754_finite false 10995116 (-40) /\
  cast float16 eps = S754_finite false 168 (-24).
Proof. repeat split. Qed.

Lemma lookup_map {X Y} (f : X -> Y) (l : list X) (i : nat) :
  map f l !! i = f <$> (l !! i).
Proof.
  revert i. induction l as [|x l IH]; intros [|i]; simpl; try reflexivity. apply IH.
Qed.

Lemma lookup_tensor_map {X Y} (f : X -> Y) (ps : list (Tensor X)) (i j : nat) p x :
  ps !! i = Some p -> data p !! j = Some x ->
  exists q, map (tensor_map f) ps !! i = Some q /\ data q !! j = Some (f x).
Proof.
  intros Hp Hx. exists (tensor_map f p). split.
  - now rewrite lookup_map, Hp.
  - unfold tensor_map. cbn [data]. now rewrite lookup_map, Hx.
Qed.

(** Why the order matters: a value just below [eps] is cleaned up at full
    precision, whereas after the conversion it has become [eps] itself in
    half precision and the same test (against [eps] in half precision) would
    keep it. *)
Example cleanup_after_half_would_miss :
  abs_lt Fixtures.f32_just_below_eps (cast float32 eps) = true /\
  half_value (denorm_clean_value float32 Fixtures.f32_just_below_eps) = S754_zero false /\
  half_value Fixtures.f32_just_below_eps = Fixtures.eps_half /\
  abs_lt (half_value Fixtures.f32_just_below_eps) (cast float16 eps) = false.
Proof. repeat split. Qed.

Section LoadModel.

Context {Kwargs : Type} (env : Env Kwargs).

(** [_load_model] step by step. *)
Lemma load_model_run (self : ModelServer) (tr : trace) :
  _load_model env self tr =
  match deserialize env self (tr ++ [EvLogInfo ("Loading Model " +:+ model_uri self)]) with
  | (Raise e, tr1) => (Raise e, tr1)
  | (Return loaded, tr1) =>
      match print_model_parameters env loaded with
      | Raise e => (Raise e, tr1 ++ [EvPrintModelParameters])
      | Return _ =>
          match to env (half (handle_float_denorm loaded)) "cuda:0" with
          | Raise e => (Raise e, tr1 ++ [EvPrintModelParameters])
          | Return moved =>
              (Return {| model_type := model_type self;
                         model_uri := model_uri self;
                         model_device := model_device self;
                         model := Some (eval moved) |},
               tr1 ++ [EvPrintModelParameters])
          end
      end
  end.
Proof.
  unfold _load_model, bind, emit, lift, ret.
  destruct (deserialize env self _) as [[loaded | e] tr1]; [| reflexivity].
  destruct (print_model_parameters env loaded); [| reflexivity].
  destruct (to env (half (handle_float_denorm loaded)) "cuda:0"); reflexivity.
Qed.

(** X4: the load goes through when each collaborator does. *)
Lemma load_model_returns (self : ModelServer) (tr tr1 : trace) (loaded : Module_) :
  deserialize env self (tr ++ [EvLogInfo ("Loading Model " +:+ model_uri self)])
    = (Return loaded, tr1) ->
  print_model_parameters env loaded = Return tt ->
  device_available env "cuda:0" = true ->
  exists self', _load_model env self tr = (Return self', tr1 ++ [EvPrintModelParameters]).
Proof.
  intros Hd Hp Hdev. rewrite load_model_run, Hd, Hp. unfold to. rewrite Hdev. eauto.
Qed.

(** C3, as amended: when [_load_model] completes, the module it leaves in
    [self.model] is [eval] of [to "cuda:0"] of [half] of the cleaned-up
    module, the clean-up having been applied to the module exactly as
    deserialized: the order is deserialize, clean up, convert and move,
    switch mode.  Hence an element of a deserialized parameter whose
    magnitude is below [eps] as converted to the dtype of the parameters is
    [+0] after the clean-up and is [+0] in the loaded half-precision
    module. *)
Theorem load_model_cleans_before_converting
    (self self' : ModelServer) (tr tr' : trace) :
  _load_model env self tr = (Return self', tr') ->
  exists loaded tr1 moved,
    deserialize env self (tr ++ [EvLogInfo ("Loading Model " +:+ model_uri self)])
      = (Return loaded, tr1) /\
    to env (half (handle_float_denorm loaded)) "cuda:0" = Return moved /\
    model self' = Some (eval moved) /\
    eval moved =
      {| parameters :=
           map (tensor_map half_value)
               (map (tensor_map (denorm_clean_value (param_dtype loaded)))
                    (parameters loaded));
         param_dtype := float16;
         device := "cuda:0";
         training := false |} /\
    (forall (i j : nat) (p : Tensor spec_float) (x : spec_float),
       parameters loaded !! i = Some p ->
       data p !! j = Some x ->
       abs_lt x (cast (param_dtype loaded) eps) = true ->
       (exists q, parameters (handle_float_denorm loaded) !! i = Some q /\
                  data q !! j = Some (S754_zero false)) /\
       (exists q, parameters (eval moved) !! i = Some q /\
                  data q !! j = Some (S754_zero false))).
Proof.
  intros Hrun. rewrite load_model_run in Hrun.
  destruct (deserialize env self _) as [[loaded | e] tr1] eqn:Hd; [| discriminate].
  destruct (print_model_parameters env loaded); [| discriminate].
  destruct (to env (half (handle_float_denorm loaded)) "cuda:0") as [moved | e] eqn:Hto;
    [| discriminate].
  injection Hrun as <- <-.
  exists loaded, tr1, moved.
  assert (Hmoved : eval moved =
    {| parameters :=
         map (tensor_map half_value)
             (map (tensor_map (denorm_clean_value (param_dtype loaded)))
                  (parameters loaded));
       param_dtype := float16; device := "cuda:0"; training := false |}).
  { unfold to in Hto. destruct (device_available env "cuda:0"); [| discriminate].
    injection Hto as <-. reflexivity. }
  split; [reflexivity |]. split; [exact Hto |]. split; [reflexivity |].
  split; [exact Hmoved |].
  intros i j p x Hp Hx Hsmall.
  destruct (lookup_tensor_map (denorm_clean_value (param_dtype loaded)) _ i j p x Hp Hx)
    as (q & Hq & Hj).
  rewrite (denorm_clean_value_small _ x Hsmall) in Hj.
  split.
  - exists q. split; [exact Hq | exact Hj].
  - destruct (lookup_tensor_map half_value _ i j q _ Hq Hj) as (h & Hh & Hhj).
    exists h. rewrite Hmoved. cbn [parameters]. split; [exact Hh | exact Hhj].
Qed.

End LoadModel.

Lemma load_model_cleans_before_converting_witness :
  exists self' m q,
    fst (_load_model Fixtures.env_ok Fixtures.server_s3 []) = Return self' /\
    model self' = Some m /\
    parameters m !! 0%nat = Some q /\
    data q !! 3%nat = Some (S754_zero false).
Proof.
  destruct (_load_model Fixtures.env_ok Fixtures.server_s3 []) as [[self' | e] tr'] eqn:Hrun;
    [| vm_compute in Hrun; discriminate Hrun].
  destruct (load_model_cleans_before_converting Fixtures.env_ok
              Fixtures.server_s3 self' [] tr' Hrun)
    as (loaded & tr1 & moved & Hd & _ & Hmodel & _ & Hzero).
  vm_compute in Hd. injection Hd as <- <-.
  destruct (Hzero 0%nat 3%nat _ _ eq_refl eq_refl eq_refl) as [_ (q & Hq & Hj)].
  exists self', (eval moved), q. auto.
Defined.

(** C3 as stated fails: the float32 parameter [10995116 * 2^-40] is below
    1e-5 and is not below [eps] as float32 holds it, which is that very
    number; the load keeps it, and in the half-precision module it is
    [168 * 2^-24]. *)
Lemma load_model_keeps_a_value_below_1em5 :
  exists (v : Q) (self' : ModelServer) (m : Module_) (q : Tensor spec_float),
    parameters Fixtures.wdnet_at_eps !! 0%nat = Some (mk_Tensor [1] [Fixtures.f32_eps]) /\
    value Fixtures.f32_eps = Some v /\ (Qabs v < 1 # 100000)%Q /\
    fst (_load_model Fixtures.env_at_eps Fixtures.server_local []) = Return self' /\
    model self' = Some m /\
    parameters m !! 0%nat = Some q /\
    data q !! 0%nat = Some (S754_finite false 168 (-24)).
Proof.
  eexists _, _, _, _.
  split; [reflexivity |]. split; [reflexivity |].
  split; [reflexivity |].
  split; [reflexivity |]. split; [reflexivity |]. split; reflexivity.
Qed.

(** *** [image_to_tensor] *)

Lemma image_to_tensor_run (image : Image) :
  image_to_tensor image =
  let? _ := view (if String.eqb (mode_name (im_mode image)) "1"
                  then imul_uint8 (from_numpy (np_array_uint8 image)) 255
                  else from_numpy (np_array_uint8 image))
                 [height image; width image;
                  Z.of_nat (length (getbands (im_mode image)))] in
  let? _ := permute (if String.eqb (mode_name (im_mode image)) "1"
                     then imul_uint8 (from_numpy (np_array_uint8 image)) 255
                     else from_numpy (np_array_uint8 image))
                    [2; 0; 1] in
  unsqueeze (normalized image) None.
Proof. reflexivity. Qed.

Lemma unsqueeze_without_dim {A} (t : Tensor A) :
  unsqueeze t None
  = Raise (TypeError "unsqueeze() missing 1 required positional arguments: dim").
Proof. reflexivity. Qed.

(** [image_to_tensor] returns for no image at all. *)
Lemma image_to_tensor_raises (image : Image) :
  exists e, image_to_tensor image = Raise e.
Proof.
  rewrite image_to_tensor_run.
  destruct (view _ _) as [viewed | e]; cbn [obind]; [| eauto].
  destruct (permute _ _) as [permuted | e]; cbn [obind]; [| eauto].
  rewrite unsqueeze_without_dim. eauto.
Qed.

Lemma shape_normalized (image : Image) :
  shape (normalized image) = shape (np_array_uint8 image).
Proof.
  unfold normalized, div, float, imul_uint8, tensor_map, from_numpy.
  destruct (String.eqb _ _); reflexivity.
Qed.

(** An image with one band gives an array with two axes, so that
    [permute(2, 0, 1)] on it is an error. *)
Lemma image_to_tensor_single_band (image : Image) :
  length (getbands (im_mode image)) = 1%nat ->
  0 <= height image -> 0 <= width image ->
  exists msg, image_to_tensor image = Raise (RuntimeError msg).
Proof.
  intros Hband Hh Hw. rewrite image_to_tensor_run.
  assert (Hshape : forall t : Tensor Z,
            shape t = shape (np_array_uint8 image) -> shape t = [height image; width image]).
  { intros t ->. unfold np_array_uint8.
    destruct (getbands (im_mode image)) as [| b [| b' bs]]; try discriminate. reflexivity. }
  set (t := if String.eqb _ _ then _ else _).
  assert (Ht : shape t = [height image; width image]).
  { apply Hshape. subst t. unfold imul_uint8, tensor_map, from_numpy.
    destruct (String.eqb _ _); reflexivity. }
  unfold view, permute. rewrite Ht, Hband.
  destruct (forallb _ _ && _); cbn [obind]; eauto.
Qed.

(** An image with several bands gets as far as [unsqueeze()]; the tensor at
    that point still has the axes of the array (height, width, band). *)
Lemma image_to_tensor_multi_band (image : Image) :
  (1 < length (getbands (im_mode image)))%nat ->
  0 <= height image -> 0 <= width image ->
  image_to_tensor image
    = Raise (TypeError "unsqueeze() missing 1 required positional arguments: dim") /\
  shape (normalized image)
    = [height image; width image; Z.of_nat (length (getbands (im_mode image)))].
Proof.
  intros Hbands Hh Hw.
  assert (Harr : shape (np_array_uint8 image)
                 = [height image; width image; Z.of_nat (length (getbands (im_mode image)))]).
  { unfold np_array_uint8.
    destruct (getbands (im_mode image)) as [| b [| b' bs]]; simpl in Hbands; try lia.
    reflexivity. }
  split; [| now rewrite shape_normalized].
  rewrite image_to_tensor_run.
  set (t := if String.eqb _ _ then _ else _).
  assert (Ht : shape t
               = [height image; width image; Z.of_nat (length (getbands (im_mode image)))]).
  { rewrite <- Harr. subst t. unfold imul_uint8, tensor_map, from_numpy.
    destruct (String.eqb _ _); reflexivity. }
  unfold view, permute. rewrite Ht.
  replace (forallb (fun d => 0 <=? d)
             [height image; width image; Z.of_nat (length (getbands (im_mode image)))])
    with true
    by (symmetry; cbn [forallb]; rewrite !andb_true_iff, !Z.leb_le; lia).
  rewrite Z.eqb_refl. cbn [andb obind length Nat.eqb negb].
  cbn [is_permutation_of_axes]. reflexivity.
Qed.

(** The values of the array of a well-formed image, divided by 255. *)
Lemma normalized_values (image : Image) :
  well_formed_image image ->
  Forall (fun q => (0 <= q <= 1)%Q) (data (normalized image)).
Proof.
  intros (_ & _ & _ & Hpix).
  assert (Hdiv : forall v : Z, 0 <= v <= 255 -> (0 <= inject_Z v / 255 <= 1)%Q).
  { intros v Hv. split.
    - apply Qle_shift_div_l; [reflexivity |]. rewrite Qmult_0_l.
      change 0%Q with (inject_Z 0). rewrite <- Zle_Qle. lia.
    - apply Qle_shift_div_r; [reflexivity |]. rewrite Qmult_1_l.
      change 255%Q with (inject_Z 255). rewrite <- Zle_Qle. lia. }
  unfold normalized, div, float, tensor_map. cbn [data].
  rewrite map_map. apply Forall_forall. intros q Hq.
  apply list_elem_of_In, in_map_iff in Hq as (v & <- & Hv).
  apply Hdiv.
  assert (Hpix' : forall u, In u (pixels image) -> 0 <= u <= sample_max (im_mode image)).
  { intros u Hu. apply (proj1 (Forall_forall _ _) Hpix). now apply list_elem_of_In. }
  assert (Hdata : data (np_array_uint8 image) = pixels image).
  { unfold np_array_uint8. destruct (getbands _) as [| b [| b' bs]]; reflexivity. }
  destruct (im_mode image) eqn:Hmode;
    match type of Hv with
    | context [String.eqb ?a ?b] =>
        let r := eval vm_compute in (String.eqb a b) in
        change (String.eqb a b) with r in Hv
    end;
    unfold imul_uint8, tensor_map, from_numpy in Hv; cbn [data] in Hv;
    rewrite Hdata in Hv.
  1: { apply in_map_iff in Hv as (u & <- & Hu).
       pose proof (Z.mod_pos_bound (u * 255) 256 ltac:(lia)). lia. }
  all: apply Hpix' in Hv; cbn [sample_max] in Hv; exact Hv.
Qed.

(** [view] and [permute] go through for an image with several bands. *)
Lemma image_to_tensor_reaches_unsqueeze (image : Image) :
  (1 < length (getbands (im_mode image)))%nat ->
  0 <= height image -> 0 <= width image ->
  image_to_tensor image = unsqueeze (normalized image) None.
Proof.
  intros Hbands Hh Hw.
  assert (Harr : shape (np_array_uint8 image)
                 = [height image; width image; Z.of_nat (length (getbands (im_mode image)))]).
  { unfold np_array_uint8.
    destruct (getbands (im_mode image)) as [| b [| b' bs]]; simpl in Hbands; try lia.
    reflexivity. }
  rewrite image_to_tensor_run.
  set (t := if String.eqb _ _ then _ else _).
  assert (Ht : shape t
               = [height image; width image; Z.of_nat (length (getbands (im_mode image)))]).
  { rewrite <- Harr. subst t. unfold imul_uint8, tensor_map, from_numpy.
    destruct (String.eqb _ _); reflexivity. }
  unfold view, permute. rewrite Ht.
  replace (forallb (fun d => 0 <=? d)
             [height image; width image; Z.of_nat (length (getbands (im_mode image)))])
    with true
    by (symmetry; cbn [forallb]; rewrite !andb_true_iff, !Z.leb_le; lia).
  rewrite Z.eqb_refl. cbn [andb obind length Nat.eqb negb].
  cbn [is_permutation_of_axes]. reflexivity.
Qed.

(** X3: for a well-formed image with several bands (LA, RGB, RGBA, CMYK),
    [image_to_tensor] gets as far as its last line, and the tensor on which
    it calls [unsqueeze()] there, the array of the image converted to float
    and divided by 255, holds values between 0 and 1. *)
Lemma normalized_range (image : Image) :
  well_formed_image image ->
  (1 < length (getbands (im_mode image)))%nat ->
  image_to_tensor image = unsqueeze (normalized image) None /\
  normalized image = div (float (from_numpy (np_array_uint8 image))) 255 /\
  Forall (fun q => (0 <= q <= 1)%Q) (data (normalized image)).
Proof.
  intros Hwf Hbands. split; [| split].
  - destruct Hwf as (Hw & Hh & _). apply image_to_tensor_reaches_unsqueeze; [exact Hbands | lia | lia].
  - unfold normalized. destruct (im_mode image); try reflexivity.
    cbn in Hbands. lia.
  - now apply normalized_values.
Qed.

(** *** [_image_to_image] *)

Section Loop.

Context {Kwargs : Type} (env : Env Kwargs) (kwargs : Kwargs).

Lemma loop_body_failed_fetch acc image_uri tr :
  loop_body env kwargs acc (image_uri, None) tr = (Return acc, tr).
Proof. reflexivity. Qed.

(** A fetched item never gets past [image_to_tensor]. *)
Lemma loop_body_fetched acc image_uri image_data tr :
  exists e, loop_body env kwargs acc (image_uri, Some image_data) tr = (Raise e, tr).
Proof.
  unfold loop_body, bind, lift.
  destruct (Image_open env image_data) as [image | e]; [| eauto].
  destruct (image_to_tensor_raises image) as [e ->]. eauto.
Qed.

Lemma for_each_run (completed : list fetched) (acc : uri_lists) (tr : trace) :
  (all_failed completed = true /\
   for_each (loop_body env kwargs) acc completed tr = (Return acc, tr)) \/
  (all_failed completed = false /\
   exists e, for_each (loop_body env kwargs) acc completed tr = (Raise e, tr)).
Proof.
  induction completed as [| [image_uri [image_data |]] rest IH].
  - left. split; reflexivity.
  - right. split; [reflexivity |].
    destruct (loop_body_fetched acc image_uri image_data tr) as [e He].
    exists e. cbn [for_each]. unfold bind. now rewrite He.
  - cbn [for_each all_failed forallb snd andb]. unfold bind.
    rewrite loop_body_failed_fetch. exact IH.
Qed.

Lemma image_to_image_run (request_id : string) (completed : list fetched) (tr : trace) :
  (all_failed completed = true /\
   _image_to_image env request_id completed kwargs tr = (Return empty_result, tr)) \/
  (all_failed completed = false /\
   exists e, _image_to_image env request_id completed kwargs tr = (Raise e, tr)).
Proof.
  unfold _image_to_image, bind.
  destruct (for_each_run completed ([], []) tr) as [[Hall ->] | [Hsome [e ->]]].
  - left. split; [exact Hall | reflexivity].
  - right. split; [exact Hsome | eauto].
Qed.

Lemma store_pair_steps (acc : uri_lists) (image_uri : string)
    (image_tensor predicted : Tensor Q) (tr : trace) :
  exists original_uri predicted_uri tr',
    store_pair env acc image_uri image_tensor predicted tr
      = (Return (fst acc ++ [original_uri], snd acc ++ [predicted_uri]), tr') /\
    (original_uri = None \/
     original_uri = Some ("s3://" +:+ BUCKET_NAME +:+ "/" +:+ image_uri +:+ "_original.png")) /\
    (predicted_uri = None \/
     predicted_uri = Some ("s3://" +:+ BUCKET_NAME +:+ "/" +:+ image_uri +:+ "_predicted.png")) /\
    puts tr' = puts tr ++
      [(BodyTensor image_tensor, BUCKET_NAME, image_uri +:+ "_original.png");
       (BodyTensor predicted, BUCKET_NAME, image_uri +:+ "_predicted.png")].
Proof.
  destruct acc as [src_images_uri result_images_uri].
  unfold store_pair, bind. rewrite upload_to_s3_run.
  assert (Hputs : forall t1 t2, puts (t1 ++ t2) = puts t1 ++ puts t2).
  { intros t1 t2. unfold puts. now rewrite flat_map_app. }
  destruct (s3_put_object env tr _ _ _) as [[] | e1]; rewrite upload_to_s3_run;
    destruct (s3_put_object env _ _ _ _) as [[] | e2];
    do 3 eexists; (split; [reflexivity |]);
    (split; [eauto |]); (split; [eauto |]);
    rewrite !Hputs; cbn [puts flat_map app]; now rewrite <- !app_assoc.
Qed.

(** X1: the two uploads and the two appends, had the loop body reached them:
    they do not raise, both objects are put under the keys derived from the
    reference, in this order, and each list grows by one entry, a locator or
    [None], so that lists of equal length stay of equal length. *)
Theorem store_pair_run (acc : uri_lists) (image_uri : string)
    (image_tensor predicted : Tensor Q) (tr : trace) :
  exists original_uri predicted_uri tr',
    store_pair env acc image_uri image_tensor predicted tr
      = (Return (fst acc ++ [original_uri], snd acc ++ [predicted_uri]), tr') /\
    entry_for "_original.png" (image_uri, None) original_uri /\
    entry_for "_predicted.png" (image_uri, None) predicted_uri /\
    (length (fst acc) = length (snd acc) ->
     length (fst acc ++ [original_uri]) = length (snd acc ++ [predicted_uri])) /\
    puts tr' = puts tr ++
      [(BodyTensor image_tensor, BUCKET_NAME, image_uri +:+ "_original.png");
       (BodyTensor predicted, BUCKET_NAME, image_uri +:+ "_predicted.png")].
Proof.
  destruct (store_pair_steps acc image_uri image_tensor predicted tr)
    as (u1 & u2 & tr' & Hrun & Hu1 & Hu2 & Hputs).
  exists u1, u2, tr'. split; [exact Hrun |].
  split; [exact Hu1 |]. split; [exact Hu2 |].
  split; [| exact Hputs].
  intros Hlen. rewrite !length_app. cbn [length]. lia.
Qed.

(** C1 fails on the code: a job one of whose downloads succeeded does not
    return.  What [_image_to_image] does: when every download of the job
    failed it returns the two lists empty; otherwise it raises, at the first
    item whose download succeeded. *)
Theorem image_to_image_returns_only_when_all_failed
    (request_id : string) (completed : list fetched) (tr : trace) :
  if all_failed completed
  then _image_to_image env request_id completed kwargs tr = (Return empty_result, tr)
  else exists e, _image_to_image env request_id completed kwargs tr = (Raise e, tr).
Proof.
  destruct (image_to_image_run request_id completed tr) as [[-> H] | [-> H]]; exact H.
Qed.

(** C9 fails on the code: whatever the job, [_image_to_image] sends no
    [put_object] request at all. *)
Theorem image_to_image_uploads_nothing
    (request_id : string) (completed : list fetched) (tr : trace) :
  puts (snd (_image_to_image env request_id completed kwargs tr)) = puts tr.
Proof.
  destruct (image_to_image_run request_id completed tr) as [[_ ->] | [_ [e ->]]];
    reflexivity.
Qed.


End Loop.

(** Lines 99-100 with a store that refuses every request: both entries are
    [None], and both requests were made. *)
Example store_pair_store_down :
  store_pair Fixtures.env_store_down ([], []) "cat.png"
    (mk_Tensor [1] [1%Q]) (mk_Tensor [1] [0%Q]) []
  = (Return ([None], [None]),
     [EvS3Put (BodyTensor (mk_Tensor [1] [1%Q])) BUCKET_NAME "cat.png_original.png";
      EvPrint (exn_str (ClientError "AccessDenied"));
      EvS3Put (BodyTensor (mk_Tensor [1] [0%Q])) BUCKET_NAME "cat.png_predicted.png";
      EvPrint (exn_str (ClientError "AccessDenied"))]).
Proof. reflexivity. Qed.

(** The failing jobs, run. *)
Example one_fetched_rgb_image :
  _image_to_image Fixtures.env_ok "req-1" [("cat.png"%string, Some Fixtures.rgb_png)] tt []
  = (Raise (TypeError "unsqueeze() missing 1 required positional arguments: dim"), []).
Proof. reflexivity. Qed.

Example one_failed_one_fetched_grey_image :
  exists msg,
    _image_to_image Fixtures.env_ok "req-2"
      [("gone.png"%string, None); ("scan.png"%string, Some Fixtures.grey_png)] tt []
    = (Raise (RuntimeError msg), []).
Proof. eexists. reflexivity. Qed.

Example one_fetched_store_down :
  _image_to_image Fixtures.env_store_down "req-3"
    [("cat.png"%string, Some Fixtures.rgb_png)] tt []
  = (Raise (TypeError "unsqueeze() missing 1 required positional arguments: dim"), []).
Proof. reflexivity. Qed.

Example all_downloads_failed :
  _image_to_image Fixtures.env_ok "req-4"
    [("a.png"%string, None); ("b.png"%string, None)] tt []
  = (Return empty_result, []).
Proof. reflexivity. Qed.

(** C4 fails on the code: [image_to_tensor] raises for every image.  An
    image with several bands reaches [unsqueeze()], which lacks its
    argument, with a tensor that is still laid out height, width, band; an
    image with one band fails before, in [permute(2, 0, 1)]. *)
Theorem image_to_tensor_never_returns (image : Image) :
  (exists e, image_to_tensor image = Raise e) /\
  ((1 < length (getbands (im_mode image)))%nat ->
   0 <= height image -> 0 <= width image ->
   image_to_tensor image
     = Raise (TypeError "unsqueeze() missing 1 required positional arguments: dim") /\
   shape (normalized image)
     = [height image; width image; Z.of_nat (length (getbands (im_mode image)))]) /\
  (length (getbands (im_mode image)) = 1%nat ->
   0 <= height image -> 0 <= width image ->
   exists msg, image_to_tensor image = Raise (RuntimeError msg)).
Proof.
  split; [apply image_to_tensor_raises |].
  split; [apply image_to_tensor_multi_band | apply image_to_tensor_single_band].
Qed.

Lemma image_to_tensor_never_returns_witness :
  image_to_tensor Fixtures.rgb_image
    = Raise (TypeError "unsqueeze() missing 1 required positional arguments: dim") /\
  shape (normalized Fixtures.rgb_image) = [1; 2; 3].
Proof.
  apply (proj1 (proj2 (image_to_tensor_never_returns Fixtures.rgb_image))).
  - cbn. lia.
  - cbn. lia.
  - cbn. lia.
Defined.

(** *** Further facts about the loop *)

(** X2: items whose download failed leave no mark: the job behaves as if
    they had not been submitted. *)
Lemma failed_fetches_are_skipped {Kwargs : Type} (env : Env Kwargs) (kwargs : Kwargs)
    (request_id : string) (completed : list fetched) (tr : trace) :
  _image_to_image env request_id completed kwargs tr
  = _image_to_image env request_id (List.filter was_fetched completed) kwargs tr.
Proof.
  unfold _image_to_image, bind.
  assert (Hloop : forall acc tr0,
            for_each (loop_body env kwargs) acc completed tr0
            = for_each (loop_body env kwargs) acc (List.filter was_fetched completed) tr0).
  { induction completed as [| [image_uri [image_data |]] rest IH]; intros acc tr0.
    - reflexivity.
    - cbn [List.filter was_fetched snd for_each]. unfold bind.
      destruct (loop_body env kwargs acc (image_uri, Some image_data) tr0)
        as [[acc' | e] tr1]; [apply IH | reflexivity].
    - cbn [List.filter was_fetched snd for_each]. unfold bind.
      rewrite loop_body_failed_fetch. apply IH. }
  now rewrite Hloop.
Qed.

Lemma normalized_range_witness :
  image_to_tensor Fixtures.rgb_image = unsqueeze (normalized Fixtures.rgb_image) None /\
  normalized Fixtures.rgb_image
    = div (float (from_numpy (np_array_uint8 Fixtures.rgb_image))) 255 /\
  Forall (fun q => (0 <= q <= 1)%Q) (data (normalized Fixtures.rgb_image)).
Proof.
  apply normalized_range.
  - unfold well_formed_image. cbn.
    repeat split; try lia.
    repeat constructor; lia.
  - cbn. lia.
Defined.

Lemma load_model_returns_witness :
  exists self',
    _load_model Fixtures.env_ok Fixtures.server_local []
    = (Return self',
       [EvLogInfo "Loading Model wdnet_v0.1"; EvJoblibLoad] ++ [EvPrintModelParameters]).
Proof.
  apply (load_model_returns Fixtures.env_ok Fixtures.server_local []
           [EvLogInfo "Loading Model wdnet_v0.1"; EvJoblibLoad] Fixtures.wdnet);
    reflexivity.
Defined.

End ServerFacts.

(** ** More about [_load_model]: how the locator is read *)

Module LocatorFacts.
Import Server StringFacts.
Local Open Scope Z_scope.

Lemma prefix_empty (s : string) : String.prefix "" s = true.
Proof. destruct s; reflexivity. Qed.

Lemma prefix_slash (x : ascii) (s : string) :
  String.prefix "/" (String x s) = if ascii_dec "/" x then true else false.
Proof. cbn [String.prefix]. destruct (ascii_dec "/" x); [apply prefix_empty | reflexivity]. Qed.

Lemma prefix_double_slash (x : ascii) (s : string) :
  String.prefix "//" (String x s) = if ascii_dec "/" x then String.prefix "/" s else false.
Proof. reflexivity. Qed.

(** A separator that does not occur is never split at. *)
Lemma split_go_absent (sep : string) (maxsplit : option nat) (s cur : string) :
  contains sep s = false ->
  split_go sep maxsplit O cur s = [cur +:+ s].
Proof.
  revert cur. induction s as [| c s IH]; intros cur Habsent.
  - cbn [split_go]. now rewrite append_empty_r.
  - cbn [contains] in Habsent. apply orb_false_iff in Habsent as [Hhere Hlater].
    cbn [split_go]. destruct maxsplit as [[| k] |]; [reflexivity | |];
      rewrite Hhere, (IH _ Hlater), append_assoc; reflexivity.
Qed.

(** Passing over the rest of a separator. *)
Lemma split_go_skip (sep : string) (maxsplit : option nat) (p s cur : string) :
  split_go sep maxsplit (String.length p) cur (p +:+ s) = split_go sep maxsplit O cur s.
Proof.
  induction p as [| c p IH]; [reflexivity |].
  rewrite append_cons. cbn [String.length split_go]. exact IH.
Qed.

Lemma split_go_here_slash (maxsplit : option nat) (b cur : string) :
  maxsplit <> Some O ->
  split_go "/" maxsplit O cur (String "/" b)
  = cur :: split_go "/" (Nat.pred <$> maxsplit) O "" b.
Proof.
  intros Hmax. cbn [split_go]. rewrite prefix_slash.
  destruct (ascii_dec "/" "/") as [_ | Hne]; [| congruence].
  destruct maxsplit as [[| k] |]; [congruence | reflexivity | reflexivity].
Qed.

Lemma split_go_here_double_slash (maxsplit : option nat) (b cur : string) :
  maxsplit <> Some O ->
  split_go "//" maxsplit O cur (String "/" (String "/" b))
  = cur :: split_go "//" (Nat.pred <$> maxsplit) O "" b.
Proof.
  intros Hmax. cbn [split_go]. rewrite prefix_double_slash, prefix_slash.
  destruct (ascii_dec "/" "/") as [_ | Hne]; [| congruence].
  destruct maxsplit as [[| k] |]; [congruence | reflexivity | reflexivity].
Qed.

Lemma split_go_step (sep : string) (maxsplit : option nat) (x : ascii) (s cur : string) :
  maxsplit <> Some O ->
  String.prefix sep (String x s) = false ->
  split_go sep maxsplit O cur (String x s)
  = split_go sep maxsplit O (cur +:+ String x "") s.
Proof.
  intros Hmax Hx. cbn [split_go]. rewrite Hx.
  destruct maxsplit as [[| k] |]; [congruence | reflexivity | reflexivity].
Qed.

(** Splitting at the first [/] of a string whose head holds none. *)
Lemma split_go_at_slash (maxsplit : option nat) (a b cur : string) :
  maxsplit <> Some O ->
  contains "/" a = false ->
  split_go "/" maxsplit O cur (a +:+ "/" +:+ b)
  = (cur +:+ a) :: split_go "/" (Nat.pred <$> maxsplit) O "" b.
Proof.
  intros Hmax. revert cur. induction a as [| x a IH]; intros cur Habsent.
  - rewrite append_empty_r, append_empty_l, append_cons, append_empty_l.
    now apply split_go_here_slash.
  - cbn [contains] in Habsent. apply orb_false_iff in Habsent as [Hhere Hlater].
    rewrite prefix_slash in Hhere.
    rewrite append_cons, split_go_step, (IH _ Hlater), append_assoc; try assumption.
    + reflexivity.
    + now rewrite prefix_slash.
Qed.

(** Splitting at the first [//] of a string: no [//] starts in the head,
    not even one that would use the first [/] of the separator. *)
Lemma split_go_at_double_slash (maxsplit : option nat) (a b cur : string) :
  maxsplit <> Some O ->
  contains "//" (a +:+ "/") = false ->
  split_go "//" maxsplit O cur (a +:+ "//" +:+ b)
  = (cur +:+ a) :: split_go "//" (Nat.pred <$> maxsplit) O "" b.
Proof.
  intros Hmax. revert cur. induction a as [| x a IH]; intros cur Habsent.
  - rewrite append_empty_r, append_empty_l, !append_cons, append_empty_l.
    now apply split_go_here_double_slash.
  - rewrite append_cons in Habsent. cbn [contains] in Habsent.
    apply orb_false_iff in Habsent as [Hhere Hlater].
    rewrite prefix_double_slash in Hhere.
    rewrite append_cons, split_go_step, (IH _ Hlater), append_assoc; try assumption.
    + reflexivity.
    + rewrite prefix_double_slash. revert Hhere.
      destruct (ascii_dec "/" x); [| reflexivity].
      destruct a as [| y a].
      * rewrite append_empty_l, prefix_slash.
        destruct (ascii_dec "/" "/"); [discriminate | congruence].
      * rewrite !append_cons, !prefix_slash. trivial.
Qed.

Lemma contains_double_slash_shorter (s : string) :
  contains "//" (s +:+ "/") = false -> contains "//" s = false.
Proof.
  induction s as [| x s IH]; [reflexivity |].
  rewrite append_cons. cbn [contains]. intros H.
  apply orb_false_iff in H as [Hhere Hlater].
  rewrite (IH Hlater), orb_false_r.
  rewrite prefix_double_slash in Hhere |- *. revert Hhere.
  destruct (ascii_dec "/" x); [| reflexivity].
  destruct s as [| y s]; [reflexivity |].
  rewrite append_cons, !prefix_slash. trivial.
Qed.

Lemma contains_slash_double_slash (s : string) :
  contains "/" s = false -> contains "//" s = false.
Proof.
  induction s as [| x s IH]; [reflexivity |].
  cbn [contains]. intros H. apply orb_false_iff in H as [Hhere Hlater].
  rewrite (IH Hlater), orb_false_r.
  rewrite prefix_slash in Hhere. rewrite prefix_double_slash. revert Hhere.
  destruct (ascii_dec "/" x); [discriminate | reflexivity].
Qed.

Lemma startswith_s3 (rest : string) : startswith ("s3://" +:+ rest) "s3://" = true.
Proof.
  unfold startswith.
  change (String.prefix "s3://" ("s3://" +:+ rest)) with (String.prefix "" rest).
  apply prefix_empty.
Qed.

Lemma split_locator (rest : string) :
  contains "//" rest = false ->
  split ("s3://" +:+ rest) "//" None = ["s3:"; rest].
Proof.
  intros Habsent. unfold split.
  change ("s3://" +:+ rest) with ("s3:" +:+ "//" +:+ rest).
  rewrite split_go_at_double_slash; [| discriminate | reflexivity].
  now rewrite split_go_absent.
Qed.

Lemma split_locator_cut (head rest : string) :
  contains "//" (head +:+ "/") = false ->
  exists pieces, split ("s3://" +:+ head +:+ "//" +:+ rest) "//" None = "s3:" :: head :: pieces.
Proof.
  intros Habsent. unfold split.
  change ("s3://" +:+ head +:+ "//" +:+ rest) with ("s3:" +:+ "//" +:+ (head +:+ "//" +:+ rest)).
  rewrite split_go_at_double_slash; [| discriminate | reflexivity].
  rewrite split_go_at_double_slash; [| discriminate | exact Habsent].
  eexists. reflexivity.
Qed.

Lemma split_bucket_key (bucket key : string) :
  contains "/" bucket = false ->
  split (bucket +:+ "/" +:+ key) "/" (Some 1%nat) = [bucket; key].
Proof.
  intros Hbucket. unfold split.
  rewrite split_go_at_slash; [| discriminate | exact Hbucket].
  cbn [fmap option_fmap option_map Nat.pred]. destruct key; reflexivity.
Qed.

Section Locator.

Context {Kwargs : Type} (env : Env Kwargs).

(** What [deserialize] does once the piece after [s3://] is known. *)
Lemma deserialize_piece (self : ModelServer) (bucket key : string)
    (pieces : list string) (tr : trace) :
  startswith (model_uri self) "s3://" = true ->
  split (model_uri self) "//" None = "s3:" :: (bucket +:+ "/" +:+ key) :: pieces ->
  contains "/" bucket = false ->
  deserialize env self tr
  = (let! file_data := download_from_s3 env bucket key in
     joblib_load_call env (FromFileObj file_data)) tr.
Proof.
  intros Hs3 Hsplit Hbucket. unfold deserialize. rewrite Hs3, Hsplit.
  cbn [getitem nth_error]. unfold bind at 1, lift at 1.
  rewrite (split_bucket_key bucket key Hbucket). reflexivity.
Qed.

Lemma deserialize_locator (self : ModelServer) (bucket key : string) (tr : trace) :
  model_uri self = "s3://" +:+ bucket +:+ "/" +:+ key ->
  contains "/" bucket = false ->
  contains "//" (bucket +:+ "/" +:+ key) = false ->
  deserialize env self tr
  = (let! file_data := download_from_s3 env bucket key in
     joblib_load_call env (FromFileObj file_data)) tr.
Proof.
  intros Huri Hbucket Hplain.
  apply (deserialize_piece self bucket key []); [| | exact Hbucket].
  - rewrite Huri. apply startswith_s3.
  - rewrite Huri. now apply split_locator.
Qed.

(** X6: a locator [s3://{bucket}/{key}] whose bucket holds no [/] and whose
    [{bucket}/{key}] holds no [//] makes [_load_model] ask the store for
    exactly that bucket and key, once; when the store delivers and joblib,
    the printer and the device go along, the bytes delivered are what
    [joblib.load] reads (as a file rewound to its start), and the module it
    yields is loaded, cleaned up and converted. *)
Theorem load_model_from_locator (self : ModelServer) (bucket key : string)
    (tr : trace) (written : bytes) (loaded : Module_) :
  model_uri self = "s3://" +:+ bucket +:+ "/" +:+ key ->
  contains "/" bucket = false ->
  contains "//" (bucket +:+ "/" +:+ key) = false ->
  s3_download_fileobj env (tr ++ [EvLogInfo ("Loading Model " +:+ model_uri self)])
    bucket key = Return written ->
  joblib_load env (FromFileObj (Some (mk_BytesIO written 0))) = Return loaded ->
  print_model_parameters env loaded = Return tt ->
  device_available env "cuda:0" = true ->
  _load_model env self tr
  = (Return {| model_type := model_type self;
               model_uri := model_uri self;
               model_device := model_device self;
               model := Some {| parameters :=
                                  map (tensor_map half_value)
                                    (map (tensor_map
                                            (denorm_clean_value (param_dtype loaded)))
                                       (parameters loaded));
                                param_dtype := float16;
                                device := "cuda:0";
                                training := false |} |},
     tr ++ [EvLogInfo ("Loading Model " +:+ model_uri self);
            EvS3Download bucket key; EvJoblibLoad; EvPrintModelParameters]).
Proof.
  intros Huri Hbucket Hplain Hget Hload Hprint Hdev.
  rewrite ServerFacts.load_model_run.
  rewrite (deserialize_locator self bucket key _ Huri Hbucket Hplain).
  unfold bind at 1. rewrite ServerFacts.download_from_s3_run, Hget.
  unfold joblib_load_call, bind, emit, lift. rewrite Hload, Hprint.
  unfold to. rewrite Hdev. cbn [half handle_float_denorm eval parameters].
  now rewrite <- !app_assoc.
Qed.

(** X7: when the store fails to deliver the object of such a locator,
    [download_from_s3] prints the error and yields [None], [joblib.load] is
    called with it all the same, and [_load_model] ends in the [TypeError]
    of that call: the store's own error is not what the caller sees. *)
Theorem load_model_download_failed (self : ModelServer) (bucket key : string)
    (tr : trace) (e : exn) :
  model_uri self = "s3://" +:+ bucket +:+ "/" +:+ key ->
  contains "/" bucket = false ->
  contains "//" (bucket +:+ "/" +:+ key) = false ->
  s3_download_fileobj env (tr ++ [EvLogInfo ("Loading Model " +:+ model_uri self)])
    bucket key = Raise e ->
  _load_model env self tr
  = (Raise (TypeError "expected str, bytes or os.PathLike object, not NoneType"),
     tr ++ [EvLogInfo ("Loading Model " +:+ model_uri self);
            EvS3Download bucket key; EvPrint (exn_str e); EvJoblibLoad]).
Proof.
  intros Huri Hbucket Hplain Hget.
  rewrite ServerFacts.load_model_run.
  rewrite (deserialize_locator self bucket key _ Huri Hbucket Hplain).
  unfold bind at 1. rewrite ServerFacts.download_from_s3_run, Hget.
  unfold joblib_load_call, bind, emit, lift.
  now rewrite <- !app_assoc.
Qed.

(** X8: a locator [s3://{name}] with no [/] after the bucket name is refused
    with a [ValueError] before the store or joblib is touched. *)
Theorem load_model_locator_without_key (self : ModelServer) (name : string) (tr : trace) :
  model_uri self = "s3://" +:+ name ->
  contains "/" name = false ->
  _load_model env self tr
  = (Raise (ValueError "wrong number of values to unpack (expected 2)"),
     tr ++ [EvLogInfo ("Loading Model " +:+ model_uri self)]).
Proof.
  intros Huri Hname.
  rewrite ServerFacts.load_model_run. unfold deserialize.
  destruct self as [ty uri dev m]. cbn [model_uri] in *. subst uri.
  rewrite startswith_s3.
  rewrite (split_locator name (contains_slash_double_slash name Hname)).
  cbn [getitem nth_error]. unfold bind at 1, lift at 1.
  unfold split. rewrite (split_go_absent "/" _ name "" Hname).
  reflexivity.
Qed.

(** X9: a key that holds [//] is cut there: for
    [s3://{bucket}/{key}//{rest}] the object asked for is [{key}] of
    [{bucket}], and [//{rest}] is dropped without a word. *)
Theorem load_model_locator_cut_at_double_slash
    (self : ModelServer) (bucket key rest : string) (tr : trace) :
  model_uri self = "s3://" +:+ (bucket +:+ "/" +:+ key) +:+ "//" +:+ rest ->
  contains "/" bucket = false ->
  contains "//" ((bucket +:+ "/" +:+ key) +:+ "/") = false ->
  deserialize env self tr
  = (let! file_data := download_from_s3 env bucket key in
     joblib_load_call env (FromFileObj file_data)) tr.
Proof.
  intros Huri Hbucket Hplain.
  destruct (split_locator_cut (bucket +:+ "/" +:+ key) rest Hplain) as [pieces Hpieces].
  apply (deserialize_piece self bucket key pieces); [| | exact Hbucket].
  - rewrite Huri. apply startswith_s3.
  - rewrite Huri. exact Hpieces.
Qed.

(** X10: the locator [upload_to_s3] hands out leads back to the object it
    stored: a server whose [model_uri] is that locator asks the store for the
    same bucket and the same key (bucket free of [/], no [//] in
    [{bucket}/{object_path}]). *)
Theorem upload_locator_is_read_back
    (data : body) (bucket object_path : string) (tr tr1 : trace) (locator : string)
    (self : ModelServer) (tr2 : trace) :
  upload_to_s3 env data bucket object_path tr = (Return (Some locator), tr1) ->
  contains "/" bucket = false ->
  contains "//" (bucket +:+ "/" +:+ object_path) = false ->
  model_uri self = locator ->
  deserialize env self tr2
  = (let! file_data := download_from_s3 env bucket object_path in
     joblib_load_call env (FromFileObj file_data)) tr2.
Proof.
  intros Hup Hbucket Hplain Huri.
  rewrite ServerFacts.upload_to_s3_run in Hup.
  destruct (s3_put_object env tr data bucket object_path); [| discriminate].
  injection Hup as Hloc _. subst locator.
  now apply deserialize_locator.
Qed.

(** X11: a load that succeeds has logged once, called [joblib.load] once and
    [print_model_parameters] once, in this order, has downloaded one object
    when [model_uri] starts with [s3://] and none otherwise, and has neither
    stored anything nor printed an error. *)
Theorem load_model_success_trace (self self' : ModelServer) (tr tr' : trace) :
  _load_model env self tr = (Return self', tr') ->
  if startswith (model_uri self) "s3://"
  then exists bucket key,
         tr' = tr ++ [EvLogInfo ("Loading Model " +:+ model_uri self);
                      EvS3Download bucket key; EvJoblibLoad; EvPrintModelParameters]
  else tr' = tr ++ [EvLogInfo ("Loading Model " +:+ model_uri self);
                    EvJoblibLoad; EvPrintModelParameters].
Proof.
  rewrite ServerFacts.load_model_run. unfold deserialize.
  destruct (startswith (model_uri self) "s3://").
  - unfold bind at 1, lift at 1.
    destruct (getitem _ 1) as [piece | e]; [| discriminate].
    unfold bind at 1, lift at 1.
    destruct (unpack2 _) as [[bucket key] | e]; [| discriminate].
    unfold bind at 1. rewrite ServerFacts.download_from_s3_run. cbn [fst snd].
    destruct (s3_download_fileobj env _ bucket key) as [written | e];
      unfold joblib_load_call, bind, emit, lift; [| discriminate].
    destruct (joblib_load env _) as [loaded | e]; [| discriminate].
    destruct (print_model_parameters env loaded); [| discriminate].
    destruct (to env _ "cuda:0"); [| discriminate].
    intros H. injection H as _ <-. exists bucket, key. now rewrite <- !app_assoc.
  - unfold joblib_load_call, bind, emit, lift.
    destruct (joblib_load env _) as [loaded | e]; [| discriminate].
    destruct (print_model_parameters env loaded); [| discriminate].
    destruct (to env _ "cuda:0"); [| discriminate].
    intros H. injection H as _ <-. now rewrite <- !app_assoc.
Qed.

End Locator.

Lemma load_model_from_locator_witness :
  _load_model Fixtures.env_ok Fixtures.server_s3 []
  = (Return {| model_type := "image_to_image";
               model_uri := "s3://models/wdnet/v0.1.joblib";
               model_device := "cpu";
               model := Some {| parameters :=
                                  map (tensor_map half_value)
                                    (map (tensor_map (denorm_clean_value float32))
                                       (parameters Fixtures.wdnet));
                                param_dtype := float16;
                                device := "cuda:0";
                                training := false |} |},
     [] ++ [EvLogInfo "Loading Model s3://models/wdnet/v0.1.joblib";
            EvS3Download "models" "wdnet/v0.1.joblib"; EvJoblibLoad;
            EvPrintModelParameters]).
Proof.
  apply (load_model_from_locator Fixtures.env_ok Fixtures.server_s3
           "models" "wdnet/v0.1.joblib" [] [Byte.x80; Byte.x04] Fixtures.wdnet);
    reflexivity.
Defined.

Lemma load_model_download_failed_witness :
  _load_model Fixtures.env_store_down Fixtures.server_s3 []
  = (Raise (TypeError "expected str, bytes or os.PathLike object, not NoneType"),
     [] ++ [EvLogInfo "Loading Model s3://models/wdnet/v0.1.joblib";
            EvS3Download "models" "wdnet/v0.1.joblib";
            EvPrint (exn_str (ClientError "AccessDenied")); EvJoblibLoad]).
Proof.
  apply (load_model_download_failed Fixtures.env_store_down Fixtures.server_s3
           "models" "wdnet/v0.1.joblib" [] (ClientError "AccessDenied"));
    reflexivity.
Defined.

Lemma load_model_locator_without_key_witness :
  _load_model Fixtures.env_ok Fixtures.server_s3_bucket_only []
  = (Raise (ValueError "wrong number of values to unpack (expected 2)"),
     [] ++ [EvLogInfo "Loading Model s3://models"]).
Proof.
  apply (load_model_locator_without_key Fixtures.env_ok
           Fixtures.server_s3_bucket_only "models" []);
    reflexivity.
Defined.

Lemma load_model_locator_cut_at_double_slash_witness :
  deserialize Fixtures.env_ok Fixtures.server_s3_doubled []
  = (let! file_data := download_from_s3 Fixtures.env_ok "models" "wdnet" in
     joblib_load_call Fixtures.env_ok (FromFileObj file_data)) [].
Proof.
  apply (load_model_locator_cut_at_double_slash Fixtures.env_ok
           Fixtures.server_s3_doubled "models" "wdnet" "v0.1.joblib" []);
    reflexivity.
Defined.

Lemma upload_locator_is_read_back_witness :
  deserialize Fixtures.env_ok Fixtures.server_s3 []
  = (let! file_data := download_from_s3 Fixtures.env_ok "models" "wdnet/v0.1.joblib" in
     joblib_load_call Fixtures.env_ok (FromFileObj file_data)) [].
Proof.
  apply (upload_locator_is_read_back Fixtures.env_ok
           (BodyBytes Fixtures.rgb_png) "models" "wdnet/v0.1.joblib" []
           [EvS3Put (BodyBytes Fixtures.rgb_png) "models" "wdnet/v0.1.joblib"]
           "s3://models/wdnet/v0.1.joblib" Fixtures.server_s3 []);
    reflexivity.
Defined.

Lemma load_model_success_trace_witness :
  exists bucket key,
    [EvLogInfo "Loading Model s3://models/wdnet/v0.1.joblib";
     EvS3Download "models" "wdnet/v0.1.joblib"; EvJoblibLoad; EvPrintModelParameters]
    = [] ++ [EvLogInfo "Loading Model s3://models/wdnet/v0.1.joblib";
             EvS3Download bucket key; EvJoblibLoad; EvPrintModelParameters].
Proof.
  eapply (load_model_success_trace Fixtures.env_ok Fixtures.server_s3 _ [] _).
  reflexivity.
Defined.

Lemma prefix_inv (p s : string) :
  String.prefix p s = true -> exists rest, s = p +:+ rest.
Proof.
  revert s. induction p as [| a p IH]; intros s Hprefix.
  - exists s. reflexivity.
  - destruct s as [| b s]; [discriminate Hprefix |].
    cbn [String.prefix] in Hprefix.
    destruct (ascii_dec a b) as [<- | _]; [| discriminate Hprefix].
    destruct (IH s Hprefix) as [rest ->]. exists rest. reflexivity.
Qed.

Lemma split_go_nonempty (sep : string) (maxsplit : option nat) (skip : nat)
    (cur s : string) :
  exists piece pieces, split_go sep maxsplit skip cur s = piece :: pieces.
Proof.
  revert maxsplit skip cur. induction s as [| c s IH]; intros maxsplit skip cur.
  - cbn [split_go]. eauto.
  - cbn [split_go]. destruct skip as [| k]; [| apply IH].
    destruct maxsplit as [[| n] |]; [eauto | |];
      (destruct (String.prefix sep (String c s)); [eauto | apply IH]).
Qed.

(** A text that holds a [/] is a part free of [/], the [/], and the rest. *)
Lemma contains_slash_inv (s : string) :
  contains "/" s = true ->
  exists a b, s = a +:+ "/" +:+ b /\ contains "/" a = false.
Proof.
  induction s as [| c s IH]; intros Hin; [discriminate Hin |].
  cbn [contains] in Hin. rewrite prefix_slash in Hin.
  destruct (ascii_dec "/" c) as [<- | Hc].
  - exists ""%string, s. split; reflexivity.
  - destruct (IH Hin) as (a & b & -> & Ha). exists (String c a), b. split; [reflexivity |].
    cbn [contains]. rewrite prefix_slash.
    destruct (ascii_dec "/" c) as [Heq | _]; [contradiction | exact Ha].
Qed.

(** X19: how line 111 reads any locator that passed the [s3://] test: the
    [[1]] after [split('//')] is always defined, so no [IndexError] arises;
    the unpacking of [split('/', 1)] fails exactly when that piece holds no
    [/]; and when it succeeds the bucket is the text before the first [/],
    free of [/], and the key is all that follows it. *)
Theorem locator_parts (uri : string) :
  startswith uri "s3://" = true ->
  exists piece,
    getitem (split uri "//" None) 1 = Return piece /\
    if contains "/" piece
    then exists bucket key,
           unpack2 (split piece "/" (Some 1%nat)) = Return (bucket, key) /\
           piece = bucket +:+ "/" +:+ key /\ contains "/" bucket = false
    else unpack2 (split piece "/" (Some 1%nat))
         = Raise (ValueError "wrong number of values to unpack (expected 2)").
Proof.
  intros Hs3. apply prefix_inv in Hs3 as [rest ->].
  assert (Hpiece : exists piece pieces,
             split ("s3://" +:+ rest) "//" None = "s3:" :: piece :: pieces).
  { unfold split.
    change ("s3://" +:+ rest) with ("s3:" +:+ "//" +:+ rest).
    rewrite split_go_at_double_slash; [| discriminate | reflexivity].
    destruct (split_go_nonempty "//" (Nat.pred <$> None) 0 "" rest) as (piece & pieces & ->).
    eauto. }
  destruct Hpiece as (piece & pieces & ->). exists piece. split; [reflexivity |].
  destruct (contains "/" piece) eqn:Hslash.
  - destruct (contains_slash_inv piece Hslash) as (bucket & key & -> & Hbucket).
    exists bucket, key. rewrite (split_bucket_key bucket key Hbucket). auto.
  - unfold split. rewrite (split_go_absent "/" _ piece "" Hslash). reflexivity.
Qed.

Lemma locator_parts_witness :
  exists piece,
    getitem (split "s3://models/wdnet/v0.1.joblib" "//" None) 1 = Return piece /\
    if contains "/" piece
    then exists bucket key,
           unpack2 (split piece "/" (Some 1%nat)) = Return (bucket, key) /\
           piece = bucket +:+ "/" +:+ key /\ contains "/" bucket = false
    else unpack2 (split piece "/" (Some 1%nat))
         = Raise (ValueError "wrong number of values to unpack (expected 2)").
Proof.
  apply (locator_parts "s3://models/wdnet/v0.1.joblib"). reflexivity.
Defined.

End LocatorFacts.

(** ** More about [_image_to_image]: where a job stops *)

Module LoopFacts.
Import Torch Server.

Section Abort.

Context {Kwargs : Type} (env : Env Kwargs) (kwargs : Kwargs).

Lemma for_each_failed_prefix (skipped rest : list fetched) (acc : uri_lists) (tr : trace) :
  all_failed skipped = true ->
  for_each (loop_body env kwargs) acc (skipped ++ rest) tr
  = for_each (loop_body env kwargs) acc rest tr.
Proof.
  induction skipped as [| [image_uri [image_data |]] skipped IH]; intros Hfailed.
  - reflexivity.
  - discriminate Hfailed.
  - cbn [app for_each]. unfold bind. rewrite ServerFacts.loop_body_failed_fetch.
    apply IH. exact Hfailed.
Qed.

(** What the loop body raises on a fetched item: the error of [Image.open],
    or else the error of [image_to_tensor]. *)
Lemma loop_body_error (acc : uri_lists) (image_uri : string) (image_data : bytes)
    (tr : trace) :
  exists e,
    loop_body env kwargs acc (image_uri, Some image_data) tr = (Raise e, tr) /\
    (Image_open env image_data = Raise e \/
     exists image, Image_open env image_data = Return image /\
                   image_to_tensor image = Raise e).
Proof.
  unfold loop_body, bind, lift.
  destruct (Image_open env image_data) as [image | e]; [| eauto].
  destruct (ServerFacts.image_to_tensor_raises image) as [e He]. rewrite He.
  exists e. split; [reflexivity |]. right. eauto.
Qed.

(** X12: a job stops at the first item, in the order the downloads finish,
    whose download succeeded: what it raises is the error of [Image.open] on
    that payload, or else the error of [image_to_tensor] on the decoded
    image; the items that finish later are never looked at, the network is
    not called and nothing is logged or stored. *)
Theorem image_to_image_stops_at_first_fetched
    (request_id : string) (skipped later : list fetched)
    (image_uri : string) (image_data : bytes) (tr : trace) :
  all_failed skipped = true ->
  exists e,
    _image_to_image env request_id (skipped ++ (image_uri, Some image_data) :: later)
      kwargs tr = (Raise e, tr) /\
    _image_to_image env request_id [(image_uri, Some image_data)] kwargs tr
      = (Raise e, tr) /\
    (Image_open env image_data = Raise e \/
     exists image, Image_open env image_data = Return image /\
                   image_to_tensor image = Raise e).
Proof.
  intros Hfailed.
  destruct (loop_body_error ([], []) image_uri image_data tr) as (e & Hbody & Hwhy).
  exists e. unfold _image_to_image, bind.
  rewrite (for_each_failed_prefix skipped _ _ _ Hfailed).
  cbn [for_each]. unfold bind. rewrite Hbody. auto.
Qed.

End Abort.

Lemma image_to_image_stops_at_first_fetched_witness :
  exists e,
    _image_to_image Fixtures.env_ok "req-5"
      ([("gone.png"%string, None)] ++
       ("cat.png"%string, Some Fixtures.rgb_png) :: [("scan.png"%string, Some Fixtures.grey_png)])
      tt [] = (Raise e, []) /\
    _image_to_image Fixtures.env_ok "req-5"
      [("cat.png"%string, Some Fixtures.rgb_png)] tt [] = (Raise e, []) /\
    (Image_open Fixtures.env_ok Fixtures.rgb_png = Raise e \/
     exists image, Image_open Fixtures.env_ok Fixtures.rgb_png = Return image /\
                   image_to_tensor image = Raise e).
Proof.
  apply (image_to_image_stops_at_first_fetched Fixtures.env_ok tt "req-5"
           [("gone.png"%string, None)] [("scan.png"%string, Some Fixtures.grey_png)]
           "cat.png" Fixtures.rgb_png []).
  reflexivity.
Defined.

End LoopFacts.

(** ** More about [_load_model]: the clean-up of small values *)

Module CleanupFacts.
Import Torch Server.

(** [eps] is a positive finite number in each dtype. *)
Lemma eps_value (d : dtype) :
  exists r, value (cast d eps) = Some r /\ (0 < r)%Q.
Proof. destruct d; eexists; (split; [reflexivity | reflexivity]). Qed.

(** The comparison, on the numbers the floats stand for. *)
Lemma abs_lt_value (x c : spec_float) (q r : Q) :
  value (SFabs x) = Some q -> value c = Some r -> abs_lt x c = Qltb q r.
Proof.
  intros Hx Hc. destruct x as [sx | sx | | sx mx ex]; try discriminate Hx;
    destruct c as [sc | sc | | sc mc ec]; try discriminate Hc;
    unfold abs_lt; rewrite Hx, Hc; reflexivity.
Qed.

Lemma zero_below_eps (d : dtype) (s : bool) : abs_lt (S754_zero s) (cast d eps) = true.
Proof. destruct d, s; reflexivity. Qed.

Lemma denorm_clean_value_idempotent (d : dtype) (x : spec_float) :
  denorm_clean_value d (denorm_clean_value d x) = denorm_clean_value d x.
Proof.
  destruct (abs_lt x (cast d eps)) eqn:Hx.
  - rewrite (ServerFacts.denorm_clean_value_small d x Hx).
    apply ServerFacts.denorm_clean_value_small, zero_below_eps.
  - rewrite (ServerFacts.denorm_clean_value_kept d x Hx).
    now apply ServerFacts.denorm_clean_value_kept.
Qed.

(** What the clean-up leaves: [+0], a NaN, an infinity, or a number that is
    not below [eps] as the dtype holds it. *)
Lemma denorm_clean_value_result (d : dtype) (x : spec_float) :
  denorm_clean_value d x = S754_zero false \/
  denorm_clean_value d x = S754_nan \/
  (exists s, denorm_clean_value d x = S754_infinity s) \/
  exists q r, value (SFabs (denorm_clean_value d x)) = Some q /\
              value (cast d eps) = Some r /\ (r <= q)%Q.
Proof.
  destruct (abs_lt x (cast d eps)) eqn:Hx.
  - left. now apply ServerFacts.denorm_clean_value_small.
  - rewrite (ServerFacts.denorm_clean_value_kept d x Hx).
    destruct (eps_value d) as (r & Hr & _).
    destruct x as [s | s | | s m e].
    + now rewrite zero_below_eps in Hx.
    + right. right. left. eauto.
    + right. now left.
    + right. right. right.
      assert (Hq : value (SFabs (S754_finite s m e))
                   = Some (1 * inject_Z (Z.pos m) * (2 # 1) ^ e)%Q) by reflexivity.
      rewrite (abs_lt_value _ _ _ _ Hq Hr) in Hx.
      eexists _, r. split; [exact Hq |]. split; [exact Hr |].
      unfold Qltb in Hx. apply negb_false_iff in Hx. now apply Qle_bool_iff.
Qed.

(** Only a negative zero or a finite value is ever replaced: a NaN and an
    infinity compare false with [eps]. *)
Lemma denorm_clean_value_changed (d : dtype) (x : spec_float) :
  denorm_clean_value d x <> x ->
  x = S754_zero true \/ exists s m e, x = S754_finite s m e.
Proof.
  intros Hchanged. destruct x as [[|] | s | | s m e]; try (now left); try (now right; eauto);
    exfalso; apply Hchanged; destruct d; reflexivity.
Qed.

(** X13: running the clean-up twice changes nothing more than running it
    once. *)
Theorem handle_float_denorm_idempotent (m : Module_) :
  handle_float_denorm (handle_float_denorm m) = handle_float_denorm m.
Proof.
  unfold handle_float_denorm. cbn [parameters param_dtype device training].
  f_equal. rewrite map_map. apply map_ext. intros t.
  unfold tensor_map. cbn [shape data]. f_equal.
  rewrite map_map. apply map_ext. intros x. apply denorm_clean_value_idempotent.
Qed.

(** X14: the clean-up keeps the number of parameters, the shape of each and
    the dtype, device and mode of the module; every element it leaves is
    [+0], a NaN, an infinity, or a number whose magnitude is not below [eps]
    as converted to the dtype of the parameters (for float32 that is
    [10995116 * 2^-40], a little less than 1e-5); and the only elements it
    replaces are finite ones and [-0]. *)
Theorem handle_float_denorm_result (m : Module_) :
  map shape (parameters (handle_float_denorm m)) = map shape (parameters m) /\
  param_dtype (handle_float_denorm m) = param_dtype m /\
  device (handle_float_denorm m) = device m /\
  training (handle_float_denorm m) = training m /\
  Forall (fun p =>
            Forall (fun y => y = S754_zero false \/ y = S754_nan \/
                             (exists s, y = S754_infinity s) \/
                             exists q r, value (SFabs y) = Some q /\
                                         value (cast (param_dtype m) eps) = Some r /\
                                         (r <= q)%Q)
              (data p))
    (parameters (handle_float_denorm m)) /\
  Forall2 (fun p q =>
             Forall2 (fun x y => y <> x ->
                                 x = S754_zero true \/ exists s mm e, x = S754_finite s mm e)
               (data p) (data q))
    (parameters m) (parameters (handle_float_denorm m)).
Proof.
  unfold handle_float_denorm. cbn [parameters param_dtype device training].
  repeat split.
  - rewrite map_map. apply map_ext. reflexivity.
  - apply List.Forall_forall. intros p Hp. apply in_map_iff in Hp as (t & <- & _).
    apply List.Forall_forall. intros y Hy. cbn [tensor_map data] in Hy.
    apply in_map_iff in Hy as (x & <- & _). apply denorm_clean_value_result.
  - induction (parameters m) as [| t ts IH]; [constructor |].
    cbn [map]. constructor; [| exact IH].
    cbn [tensor_map data]. induction (data t) as [| x xs IHx]; [constructor |].
    cbn [map]. constructor; [| exact IHx].
    apply denorm_clean_value_changed.
Qed.

(** The thresholds of X14 at work: the float32 number [10995116 * 2^-40] is
    kept, the next float32 number below it is replaced. *)
Example handle_float_denorm_at_the_threshold :
  denorm_clean_value float32 (S754_finite false 10995116 (-40))
    = S754_finite false 10995116 (-40) /\
  denorm_clean_value float32 (S754_finite false 10995115 (-40)) = S754_zero false /\
  denorm_clean_value float16 (S754_finite false 17 (-24)) = S754_zero false /\
  denorm_clean_value float64 (S754_finite false 4503599627370496 (-52))
    = S754_finite false 4503599627370496 (-52).
Proof. repeat split. Qed.

End CleanupFacts.

(** ** More about [resize_image]: the inputs it refuses *)

Module ResizeFacts.
Import Torch Server.
Local Open Scope Z_scope.

(** X15: [resize_image] raises, whatever the two bounds, a [ValueError] for
    a tensor that has not exactly three axes, and a [ZeroDivisionError] for
    one whose height or width is zero: both quotients are computed before
    one of them is selected, so an empty side fails even where the other
    quotient is the one that would be used. *)
Theorem resize_image_refuses {A : Type} (image_tensor : Tensor A)
    (min_dimension max_dimension : Z) :
  (length (shape image_tensor) <> 3%nat ->
   resize_image image_tensor min_dimension max_dimension
   = Raise (ValueError "not enough or too many values to unpack (expected 3)")) /\
  (forall c height width,
     shape image_tensor = [c; height; width] ->
     height = 0 \/ width = 0 ->
     resize_image image_tensor min_dimension max_dimension = Raise ZeroDivisionError).
Proof.
  split.
  - intros Haxes. unfold resize_image.
    destruct (shape image_tensor) as [| c [| height [| width [| extra more]]]];
      try reflexivity.
    now contradiction Haxes.
  - intros c height width Hshape Hzero. unfold resize_image, true_div. rewrite Hshape.
    destruct (Z.eqb_spec height 0) as [_ | Hh]; [reflexivity |].
    destruct (Z.eqb_spec width 0) as [_ | Hw]; [reflexivity | lia].
Qed.

End ResizeFacts.

(** ** More about [gen_request_id] and the envelope *)

Module RequestIdFacts.
Import Api StringFacts.
Local Open Scope Z_scope.

(** Two concatenations with tails of one length agree part by part. *)
Lemma append_eq_tails (s1 s2 t1 t2 : string) :
  String.length t1 = String.length t2 ->
  s1 +:+ t1 = s2 +:+ t2 -> s1 = s2 /\ t1 = t2.
Proof.
  intros Hlen. revert s2. induction s1 as [| c s1 IH]; intros [| d s2] Heq.
  - now split.
  - exfalso. change ("" +:+ t1) with t1 in Heq. rewrite Heq in Hlen.
    change (String d s2 +:+ t2) with (String d (s2 +:+ t2)) in Hlen.
    cbn [String.length] in Hlen. rewrite length_append in Hlen. lia.
  - exfalso. change ("" +:+ t2) with t2 in Heq. rewrite <- Heq in Hlen.
    change (String c s1 +:+ t1) with (String c (s1 +:+ t1)) in Hlen.
    cbn [String.length] in Hlen. rewrite length_append in Hlen. lia.
  - change (String c (s1 +:+ t1) = String d (s2 +:+ t2)) in Heq.
    injection Heq as -> Heq. destruct (IH s2 Heq) as [-> ->]. now split.
Qed.

(** X16: an id is 33 characters longer than its api name, and it determines
    both parts: two ids that are equal were made for the same api name from
    the same UUID, also when the api names hold underscores or hexadecimal
    digits themselves. *)
Theorem gen_request_id_determines_its_parts
    (r1 r2 : list Byte.byte) (api_name1 api_name2 : string) :
  length r1 = 16%nat -> length r2 = 16%nat ->
  String.length (gen_request_id r1 api_name1) = (String.length api_name1 + 33)%nat /\
  (gen_request_id r1 api_name1 = gen_request_id r2 api_name2 ->
   api_name1 = api_name2 /\ uuid4 r1 = uuid4 r2).
Proof.
  intros H1 H2. unfold gen_request_id, uuid_hex. split.
  - rewrite !length_append, ApiFacts.hex_fixed_length. reflexivity.
  - intros Heq. apply append_eq_tails in Heq as [Hname Htoken].
    + split; [exact Hname |].
      apply (ApiFacts.append_cancel_l "_") in Htoken.
      apply (ApiFacts.hex_fixed_inj 32); [| | exact Htoken];
        change (16 ^ Z.of_nat 32) with (2 ^ 128); now apply ApiFacts.uuid4_range.
    + now rewrite !length_append, !ApiFacts.hex_fixed_length.
Qed.

Lemma gen_request_id_determines_its_parts_witness :
  String.length (gen_request_id Fixtures.draw_a "api") = (String.length "api" + 33)%nat /\
  (gen_request_id Fixtures.draw_a "api" = gen_request_id Fixtures.draw_b "api" ->
   "api"%string = "api"%string /\ uuid4 Fixtures.draw_a = uuid4 Fixtures.draw_b).
Proof.
  apply (gen_request_id_determines_its_parts Fixtures.draw_a Fixtures.draw_b "api" "api");
    reflexivity.
Defined.

(** Bits 76 to 79 of a version-4 UUID hold the version. *)
Lemma uuid4_version_bits (r : list Byte.byte) : (uuid4 r / 2 ^ 76) mod 2 ^ 4 = 4.
Proof.
  rewrite <- Z.shiftr_div_pow2, <- Z.land_ones by lia.
  apply Z.bits_inj'. intros n Hn.
  rewrite Z.land_spec, Z.shiftr_spec by lia.
  destruct (Z.lt_ge_cases n 4) as [Hlow | Hhigh].
  - rewrite Z.ones_spec_low, andb_true_r by lia.
    unfold uuid4. cbv zeta. repeat (rewrite Z.lor_spec || rewrite Z.land_spec).
    set (b := Z.testbit (int_from_bytes r) (n + 76)). clearbody b.
    assert (n = 0 \/ n = 1 \/ n = 2 \/ n = 3) as [-> | [-> | [-> | ->]]] by lia;
      destruct b; reflexivity.
  - rewrite Z.ones_spec_high, andb_false_r by lia.
    symmetry. apply Z.bits_above_log2; [lia |]. change (Z.log2 4) with 2. lia.
Qed.

(** Bits 62 and 63 hold the variant. *)
Lemma uuid4_variant_bits (r : list Byte.byte) : (uuid4 r / 2 ^ 62) mod 2 ^ 2 = 2.
Proof.
  rewrite <- Z.shiftr_div_pow2, <- Z.land_ones by lia.
  apply Z.bits_inj'. intros n Hn.
  rewrite Z.land_spec, Z.shiftr_spec by lia.
  destruct (Z.lt_ge_cases n 2) as [Hlow | Hhigh].
  - rewrite Z.ones_spec_low, andb_true_r by lia.
    unfold uuid4. cbv zeta. repeat (rewrite Z.lor_spec || rewrite Z.land_spec).
    set (b := Z.testbit (int_from_bytes r) (n + 62)). clearbody b.
    assert (n = 0 \/ n = 1) as [-> | ->] by lia; destruct b; reflexivity.
  - rewrite Z.ones_spec_high, andb_false_r by lia.
    symmetry. apply Z.bits_above_log2; [lia |]. change (Z.log2 2) with 1. lia.
Qed.

Lemma uuid4_variant_digit (r : list Byte.byte) : 8 <= (uuid4 r / 2 ^ 60) mod 16 <= 11.
Proof.
  pose proof (uuid4_variant_bits r) as Hbits.
  replace (uuid4 r / 2 ^ 62) with (uuid4 r / 2 ^ 60 / 4) in Hbits
    by (rewrite Z.div_div by lia; reflexivity).
  change 16 with (4 * 4). rewrite Z.rem_mul_r by lia.
  change (2 ^ 2) with 4 in Hbits. rewrite Hbits.
  pose proof (Z.mod_pos_bound (uuid4 r / 2 ^ 60) 4 ltac:(lia)). lia.
Qed.

(** X17: two of the 32 digits of the token are not random: in every id the
    13th digit after the underscore is [4], the version of the UUID, and the
    17th is one of [8], [9], [a], [b], its variant. *)
Theorem gen_request_id_fixed_digits (urandom16 : list Byte.byte) (api_name : string) :
  String.get (13 + String.length api_name) (gen_request_id urandom16 api_name)
  = Some "4"%char /\
  exists c, String.get (17 + String.length api_name) (gen_request_id urandom16 api_name)
            = Some c /\
            (c = "8" \/ c = "9" \/ c = "a" \/ c = "b")%char.
Proof.
  unfold gen_request_id, uuid_hex. split.
  - rewrite <- append_correct2.
    change (String.get 13 ("_" +:+ hex_fixed 32 (uuid4 urandom16)))
      with (Some (hex_digit ((uuid4 urandom16 / 2 ^ 76) mod 2 ^ 4))).
    now rewrite uuid4_version_bits.
  - exists (hex_digit ((uuid4 urandom16 / 2 ^ 60) mod 16)). split.
    + rewrite <- append_correct2. reflexivity.
    + pose proof (uuid4_variant_digit urandom16) as Hd.
      set (d := (uuid4 urandom16 / 2 ^ 60) mod 16) in *. clearbody d.
      assert (d = 8 \/ d = 9 \/ d = 10 \/ d = 11) as [-> | [-> | [-> | ->]]] by lia; auto.
Qed.

Lemma dec_fixed_length (n : nat) (z : Z) : String.length (dec_fixed n z) = n.
Proof. induction n as [| k IH]; simpl; [reflexivity | now rewrite IH]. Qed.

(** X18: the [created] member of the dictionary that [build_json_response]
    hands to [JSONResponse] comes in two formats: 26 characters, with the
    microseconds, or 19 characters, without them, when the clock was read
    on a whole second; it is the first member of the body of every response
    the call returns. *)
Theorem build_json_response_created_format
    (now : datetime) (request_id : string) (job_result : InferenceTaskResult) :
  exists created,
    dict_get (envelope now request_id job_result) "created" = Some (PStr created) /\
    String.length created = (if microsecond now =? 0 then 19%nat else 26%nat) /\
    forall float_repr r,
      build_json_response float_repr now request_id job_result = Return r ->
      exists rest,
        body r = "{" +:+ encode_basestring "created" +:+ ":" +:+
                 encode_basestring created +:+ rest.
Proof.
  exists (datetime_str now). split; [reflexivity |]. split.
  - unfold datetime_str. rewrite !length_append, !dec_fixed_length.
    destruct (microsecond now =? 0); [reflexivity |].
    rewrite length_append, dec_fixed_length. reflexivity.
  - intros float_repr r. rewrite ApiFacts.build_json_response_run.
    generalize (datetime_str now). intros created.
    destruct (json_dumps float_repr (finished_reason job_result)) as [f | e];
      [| discriminate].
    destruct (json_dumps float_repr (result job_result)) as [x | e]; [| discriminate].
    cbn [Py.obind]. intros [= <-]. cbn [body]. eexists. reflexivity.
Qed.

End RequestIdFacts.

(** ** More about [_load_model]: the device *)

Module DeviceFacts.
Import Torch Server.

Section Device.

Context {Kwargs : Type} (env : Env Kwargs).

(** X20: [_load_model] does not read [model_device]: with another value in
    that field it does the same, raises the same or returns the same module,
    which sits on [cuda:0] in either case. *)
Theorem load_model_ignores_model_device (self : ModelServer) (other : string) (tr : trace) :
  _load_model env {| model_type := model_type self;
                     model_uri := model_uri self;
                     model_device := other;
                     model := model self |} tr
  = match _load_model env self tr with
    | (Return self', tr') =>
        (Return {| model_type := model_type self';
                   model_uri := model_uri self';
                   model_device := other;
                   model := model self' |}, tr')
    | (Raise e, tr') => (Raise e, tr')
    end.
Proof.
  rewrite !ServerFacts.load_model_run. destruct self as [ty uri dev m].
  cbn [model_type model_uri model_device model].
  change (deserialize env (mk_ModelServer ty uri other m))
    with (deserialize env (mk_ModelServer ty uri dev m)).
  destruct (deserialize env _ _) as [[loaded | e] tr1]; [| reflexivity].
  destruct (print_model_parameters env loaded); [| reflexivity].
  destruct (to env _ "cuda:0"); reflexivity.
Qed.

(** X21: where [cuda:0] is not available the load never completes, whatever
    [model_device] says: it raises, and when the module could be read and
    printed it is the move to the device that raises, after both. *)
Theorem load_model_needs_cuda (self : ModelServer) (tr : trace) :
  device_available env "cuda:0" = false ->
  exists e tr',
    _load_model env self tr = (Raise e, tr') /\
    forall loaded tr1,
      deserialize env self (tr ++ [EvLogInfo ("Loading Model " +:+ model_uri self)])
        = (Return loaded, tr1) ->
      print_model_parameters env loaded = Return tt ->
      to env (half (handle_float_denorm loaded)) "cuda:0" = Raise e /\
      tr' = tr1 ++ [EvPrintModelParameters].
Proof.
  intros Hdev. rewrite ServerFacts.load_model_run.
  destruct (deserialize env self _) as [[loaded | e] tr1].
  - destruct (print_model_parameters env loaded) as [[] | e] eqn:Hprint.
    + unfold to. rewrite Hdev. do 2 eexists. split; [reflexivity |].
      intros loaded' tr1' Heq _. injection Heq as _ <-. now split.
    + do 2 eexists. split; [reflexivity |].
      intros loaded' tr1' Heq Hp. injection Heq as <- _. congruence.
  - do 2 eexists. split; [reflexivity |]. intros loaded tr1' Heq. discriminate Heq.
Qed.

End Device.

Lemma load_model_needs_cuda_witness :
  exists e tr',
    _load_model Fixtures.env_cpu_only Fixtures.server_local [] = (Raise e, tr') /\
    forall loaded tr1,
      deserialize Fixtures.env_cpu_only Fixtures.server_local
        ([] ++ [EvLogInfo ("Loading Model " +:+ model_uri Fixtures.server_local)])
        = (Return loaded, tr1) ->
      print_model_parameters Fixtures.env_cpu_only loaded = Return tt ->
      to Fixtures.env_cpu_only (half (handle_float_denorm loaded)) "cuda:0" = Raise e /\
      tr' = tr1 ++ [EvPrintModelParameters].
Proof.
  apply (load_model_needs_cuda Fixtures.env_cpu_only Fixtures.server_local []).
  reflexivity.
Defined.

End DeviceFacts.
